(** * Agent motion prediction driver: a shallow embedding

    The development follows [agent_motion_prediction.py]: the configuration
    mapping, the construction of the backbone ([build_model]), the masked
    loss ([forward]), the training loop with its periodic checkpoints
    ([train]), the evaluation loop ([test]) and the launcher ([main]).

    Python integers are [Z]; tensors are a shape with row-major data of
    single-precision numbers (IEEE 754 binary32, with its rounding, its
    infinities and its NaN); exceptions are values of [exn] carried by
    [result];
    the calls into the deep-learning framework whose code is not part of the
    script (the network's forward pass, back-propagation, the optimizer's
    update rule) are the variables of a section. A process is a computation
    that logs its effects (the initialisation of the process group, each
    [optimizer.step()], each [torch.save], the prediction file) and may
    raise. Console output, the progress bar, the placement of tensors on
    devices and the train/eval mode of the module have no effect on what is
    proved here and are left out. *)

From Stdlib Require Import ZArith QArith List Lia Bool Ascii.
From Stdlib Require Import Floats.SpecFloat.
From stdpp Require Import base option list gmap strings fin_maps pretty.
Import ListNotations.

Set Default Proof Using "Type".

(** ** Exceptions and results *)

Inductive exn : Type :=
  | StopIteration
  | ZeroDivisionError
  | ValueError (msg : string)
  | RuntimeError (msg : string)
  | FileNotFoundError (path : string)
  | AssertionError
  | KeyError (key : string).

Definition result (A : Type) : Type := (exn + A)%type.

Definition ok {A} (x : A) : result A := inr x.
Definition raise {A} (e : exn) : result A := inl e.

Definition rbind {A B} (r : result A) (k : A -> result B) : result B :=
  match r with
  | inl e => inl e
  | inr x => k x
  end.

Declare Scope result_scope.
Delimit Scope result_scope with result.
Notation "'let?' x := r 'in' k" := (rbind r (fun x => k))
  (at level 10, x pattern, r at level 100, k at level 200) : result_scope.
Local Open Scope result_scope.

(** ** Python values read from the configuration file *)

Inductive pyval : Type :=
  | PyNone
  | PyBool (b : bool)
  | PyInt (z : Z)
  | PyStr (s : string).

(** Truth value testing, as [not x] and [if x] apply it. *)
Definition truthy (v : pyval) : bool :=
  match v with
  | PyNone => false
  | PyBool b => b
  | PyInt z => negb (z =? 0)%Z
  | PyStr s => negb (String.eqb s EmptyString)
  end.

(** [a % b] on Python integers: the sign follows the divisor, and a zero
    divisor raises. *)
Definition py_mod (a b : Z) : result Z :=
  if (b =? 0)%Z then raise ZeroDivisionError else ok (a mod b)%Z.

(** [range(n)] *)
Definition py_range (n : Z) : list Z :=
  map Z.of_nat (seq 0 (Z.to_nat n)).

(** ** The configuration mapping [cfg] *)

Record model_params : Type := {
  history_num_frames : Z;
  future_num_frames : Z
}.

Record train_params : Type := {
  model_num : Z;
  checkpoint_every_n_steps : Z;
  max_num_epochs : Z;
  load_the_state : pyval
}.

Record test_params : Type := {
  test_model_num : Z
}.

Record config : Type := {
  cfg_model_params : model_params;
  cfg_train_params : train_params;
  cfg_test_params : test_params
}.

(** ** Layers of the backbone *)

Record conv2d : Type := {
  in_channels : Z;
  out_channels : Z;
  kernel_size : Z * Z;
  stride : Z * Z;
  padding : Z * Z;
  conv_bias : bool
}.

Record linear : Type := {
  in_features : Z;
  out_features : Z;
  linear_bias : bool
}.

(** The layers the script never touches, by their constructor in
    [torchvision.models.resnet]. *)
Inductive layer : Type :=
  | BatchNorm2d (num_features : Z)
  | ReLU (inplace : bool)
  | MaxPool2d (k s p : Z)
  | Bottlenecks (planes : Z) (blocks : nat) (first_stride : Z)
  | AdaptiveAvgPool2d (h w : Z).

(** Where the weights of the backbone come from. *)
Inductive weight_source : Type :=
  | RandomInit
  | ImageNet.

Record resnet : Type := {
  conv1 : conv2d;
  bn1 : layer;
  relu : layer;
  maxpool : layer;
  layer1 : layer;
  layer2 : layer;
  layer3 : layer;
  layer4 : layer;
  avgpool : layer;
  fc : linear;
  weights_from : weight_source
}.

(** Attribute assignment [model_.conv1 = c] and [model_.fc = l]. *)
Definition set_conv1 (c : conv2d) (m : resnet) : resnet :=
  {| conv1 := c; bn1 := bn1 m; relu := relu m; maxpool := maxpool m;
     layer1 := layer1 m; layer2 := layer2 m; layer3 := layer3 m;
     layer4 := layer4 m; avgpool := avgpool m; fc := fc m;
     weights_from := weights_from m |}.

Definition set_fc (l : linear) (m : resnet) : resnet :=
  {| conv1 := conv1 m; bn1 := bn1 m; relu := relu m; maxpool := maxpool m;
     layer1 := layer1 m; layer2 := layer2 m; layer3 := layer3 m;
     layer4 := layer4 m; avgpool := avgpool m; fc := l;
     weights_from := weights_from m |}.

(** [nn.Conv2d(...)] and [nn.Linear(...)]: the framework allocates the
    weight tensor and refuses a negative dimension. *)
Definition Conv2d (in_c out_c : Z) (k s p : Z * Z) (bias : bool)
  : result conv2d :=
  if ((in_c <? 0) || (out_c <? 0))%Z
  then raise (RuntimeError "Trying to create tensor with negative dimension")
  else ok {| in_channels := in_c; out_channels := out_c; kernel_size := k;
             stride := s; padding := p; conv_bias := bias |}.

Definition Linear (in_f out_f : Z) : result linear :=
  if ((in_f <? 0) || (out_f <? 0))%Z
  then raise (RuntimeError "Trying to create tensor with negative dimension")
  else ok {| in_features := in_f; out_features := out_f;
             linear_bias := true |}.

(** [torchvision.models.resnet.resnet50(pretrained=...)] *)
Definition resnet50 (pretrained : bool) : resnet :=
  {| conv1 := {| in_channels := 3; out_channels := 64; kernel_size := (7, 7)%Z;
                 stride := (2, 2)%Z; padding := (3, 3)%Z; conv_bias := false |};
     bn1 := BatchNorm2d 64;
     relu := ReLU true;
     maxpool := MaxPool2d 3 2 1;
     layer1 := Bottlenecks 64 3 1;
     layer2 := Bottlenecks 128 4 2;
     layer3 := Bottlenecks 256 6 2;
     layer4 := Bottlenecks 512 3 2;
     avgpool := AdaptiveAvgPool2d 1 1;
     fc := {| in_features := 2048; out_features := 1000; linear_bias := true |};
     weights_from := if pretrained then ImageNet else RandomInit |}.

(** ** [build_model] *)

Definition build_model (cfg_ : config) : result resnet :=
  let model_ := resnet50 false in
  let num_history_channels :=
    ((history_num_frames (cfg_model_params cfg_) + 1) * 2)%Z in
  let num_in_channels := (3 + num_history_channels)%Z in
  let? c := Conv2d num_in_channels
              (out_channels (conv1 model_))
              (kernel_size (conv1 model_))
              (stride (conv1 model_))
              (padding (conv1 model_))
              false in
  let model_ := set_conv1 c model_ in
  let num_targets := (2 * future_num_frames (cfg_model_params cfg_))%Z in
  let? l := Linear 2048 num_targets in
  let model_ := set_fc l model_ in
  ok model_.

(** ** Single-precision numbers *)

(** The elements of a tensor are IEEE 754 binary32 numbers: 24 bits of
    precision, exponents below 128, results rounded to the nearest number
    with ties to even. There are two zeros, two infinities and NaN. *)
Definition float32 : Type := spec_float.

Definition f32_prec : Z := 24.
Definition f32_emax : Z := 128.

Definition f32_add : float32 -> float32 -> float32 :=
  SFadd f32_prec f32_emax.
Definition f32_sub : float32 -> float32 -> float32 :=
  SFsub f32_prec f32_emax.
Definition f32_mul : float32 -> float32 -> float32 :=
  SFmul f32_prec f32_emax.
Definition f32_div : float32 -> float32 -> float32 :=
  SFdiv f32_prec f32_emax.

Definition f32_zero : float32 := S754_zero false.

(** The number nearest to an integer. *)
Definition f32_of_Z (z : Z) : float32 :=
  binary_normalize f32_prec f32_emax z 0 false.

Definition is_zero (x : float32) : bool :=
  match x with
  | S754_zero _ => true
  | _ => false
  end.

(** Neither an infinity nor NaN. *)
Definition is_finite (x : float32) : bool :=
  match x with
  | S754_zero _ | S754_finite _ _ _ => true
  | S754_infinity _ | S754_nan => false
  end.

(** NaN, or a number whose sign bit is clear. *)
Definition not_negative (x : float32) : bool :=
  match x with
  | S754_zero s | S754_infinity s | S754_finite s _ _ => negb s
  | S754_nan => true
  end.

(** Equality of two numbers, up to the sign of zero. *)
Definition f32_same (x y : float32) : Prop :=
  x = y \/ (is_zero x = true /\ is_zero y = true).

(** ** Tensors *)

(** A tensor is its shape and its elements in row-major order. *)
Record tensor : Type := {
  shape : list nat;
  data : list float32
}.

Definition numel (s : list nat) : nat := foldr Nat.mul 1 s.

Definition tensor_wf (t : tensor) : Prop :=
  length (data t) = numel (shape t).

(** [t.reshape(s)] for a shape [s] taken from another tensor (no inferred
    dimension): the number of elements has to agree. *)
Definition reshape (s : list nat) (t : tensor) : result tensor :=
  if decide (numel s = numel (shape t))
  then ok {| shape := s; data := data t |}
  else raise (RuntimeError "shape is invalid for input size").

(** [t.unsqueeze(-1)] *)
Definition unsqueeze_last (t : tensor) : tensor :=
  {| shape := shape t ++ [1]; data := data t |}.

(** *** Broadcasting *)

Fixpoint chunks {A} (n sz : nat) (l : list A) : list (list A) :=
  match n with
  | O => []
  | S n' => take sz l :: chunks n' sz (drop sz l)
  end.

(** Shapes are aligned on the right; the shorter one is padded with ones. *)
Definition pad_shape (n : nat) (s : list nat) : list nat :=
  replicate (n - length s) 1 ++ s.

Definition broadcast_dim (a b : nat) : option nat :=
  if decide (a = b) then Some a
  else if decide (a = 1) then Some b
  else if decide (b = 1) then Some a
  else None.

Definition broadcast_shape (s1 s2 : list nat) : option (list nat) :=
  let n := length s1 `max` length s2 in
  mapM (fun ab => broadcast_dim ab.1 ab.2)
       (zip (pad_shape n s1) (pad_shape n s2)).

(** Expansion of row-major data from shape [src] to shape [tgt] of the same
    rank: a dimension of size one is repeated, any other has to agree. *)
Fixpoint expand (src tgt : list nat) (d : list float32)
  : option (list float32) :=
  match src, tgt with
  | [], [] => Some d
  | n :: src', m :: tgt' =>
      rows ← mapM (expand src' tgt') (chunks n (numel src') d);
      if decide (n = m) then Some (concat rows)
      else if decide (n = 1) then Some (concat (mjoin (replicate m rows)))
      else None
  | _, _ => None
  end.

(** An elementwise binary operation with broadcasting. *)
Definition broadcast_with (f : float32 -> float32 -> float32)
    (a b : tensor) : result tensor :=
  let n := length (shape a) `max` length (shape b) in
  match broadcast_shape (shape a) (shape b) with
  | None => raise (RuntimeError "tensor sizes must match")
  | Some s =>
      match expand (pad_shape n (shape a)) s (data a),
            expand (pad_shape n (shape b)) s (data b) with
      | Some da, Some db => ok {| shape := s; data := zip_with f da db |}
      | _, _ => raise (RuntimeError "tensor sizes must match")
      end
  end.

Definition tmul : tensor -> tensor -> result tensor :=
  broadcast_with f32_mul.

(** [nn.MSELoss(reduction="none")]: the difference is rounded, then its
    square. *)
Definition sq_err (x y : float32) : float32 :=
  f32_mul (f32_sub x y) (f32_sub x y).

Definition MSELoss_none : tensor -> tensor -> result tensor :=
  broadcast_with sq_err.

(** A tensor without dimensions, as [t.mean()] returns. *)
Definition scalar : Type := float32.

(** The sum of the elements, added one after the other to zero. *)
Definition f32_sum (l : list float32) : float32 :=
  fold_left f32_add l f32_zero.

(** [t.mean()]: the sum of the elements divided by their number. The mean of
    no element at all is 0/0, which is NaN. *)
Definition mean (t : tensor) : scalar :=
  f32_div (f32_sum (data t)) (f32_of_Z (Z.of_nat (length (data t)))).

(** ** [forward] *)

(** A collated batch of the agent dataset. *)
Record batch : Type := {
  image : tensor;
  target_availabilities : tensor;
  target_positions : tensor;
  timestamp : list Z;
  track_id : list Z
}.

Definition forward (data_ : batch) (model_ : tensor -> result tensor)
    (device_ : Z) (criterion_ : tensor -> tensor -> result tensor)
  : result (scalar * tensor) :=
  let inputs := image data_ in
  let target_availabilities :=
    unsqueeze_last (target_availabilities data_) in
  let targets := target_positions data_ in
  let? y := model_ inputs in
  let? outputs := reshape (shape targets) y in
  let? loss_ := criterion_ outputs targets in
  let? loss_ := tmul loss_ target_availabilities in
  let loss_ := mean loss_ in
  ok (loss_, outputs).

(** The loss of an element: its squared error times the availability of its
    step. With [k] coordinates by step, element [i] belongs to step
    [i / k]. *)
Definition masked_sq_err (k : nat) (o t a : list float32) (i : nat)
  : float32 :=
  f32_mul (sq_err (nth i o f32_zero) (nth i t f32_zero))
    (nth (i / k) a f32_zero).

(** ** Command line *)

(** The three flags declared with [add_argument], as [parse_args] returns
    them. *)
Record parsed_args : Type := {
  nodes : Z;
  gpus : Z;
  nr : Z
}.

(** Their defaults. *)
Definition default_args : parsed_args :=
  {| nodes := 1; gpus := 4; nr := 0 |}.

(** The namespace once [main] has added [world_size] to it. *)
Record namespace : Type := {
  flags : parsed_args;
  world_size : Z
}.

(** ** Effects of a process *)

(** The optimizers of [torch.optim] the development distinguishes. *)
Inductive algorithm : Type :=
  | SGD
  | Adam.

(** What an iterator yields at each call of [next]: a batch or an exception
    raised by the loader; at the end of the list it raises
    [StopIteration]. *)
Definition iterator : Type := list (result batch).

(** A data loader: [len(loader)] and the items of a fresh [iter(loader)]. *)
Record dataloader : Type := {
  dl_len : nat;
  dl_items : iterator
}.

Definition iter (dl : dataloader) : iterator := dl_items dl.

Definition next (it : iterator) : result (batch * iterator) :=
  match it with
  | [] => raise StopIteration
  | inl e :: _ => raise e
  | inr b :: it' => ok (b, it')
  end.

Section Driver.

(** The types of the framework's objects: parameter values of a module,
    gradients, and the internal state of an optimizer. *)
Variables weights grads ostate : Type.

(** [state_dict()] of a module or of an optimizer. *)
Inductive state_dict : Type :=
  | ModelState (w : weights)
  | OptimizerState (a : algorithm) (lr : Q) (s : ostate).

(** The object handed to [torch.save]: a dictionary from keys to state
    dictionaries. *)
Definition checkpoint : Type := gmap string state_dict.

(** The effects a process leaves behind, oldest first. *)
Inductive event : Type :=
  | InitProcessGroup (world_size rank : Z)
  | OptimizerStep (epoch index : Z) (data : batch) (a : algorithm) (lr : Q)
  | TorchSave (path : string) (obj : checkpoint)
  | WritePredCsv (path : string) (timestamps track_ids : list Z)
      (coords : tensor).

(** Computations that log effects and may raise: the log survives the
    exception. *)
Definition io (A : Type) : Type := (list event * result A)%type.

Definition ret {A} (x : A) : io A := ([], ok x).

Definition bind {A B} (m : io A) (k : A -> io B) : io B :=
  match m with
  | (l, inl e) => (l, inl e)
  | (l, inr x) => let (l', r) := k x in (l ++ l', r)
  end.

Definition lift {A} (r : result A) : io A := ([], r).

Definition tell (e : event) : io unit := ([e], ok tt).

(** [for x in xs: body], threading the loop-carried state. *)
Fixpoint for_each {X S} (xs : list X) (body : X -> S -> io S) (s : S)
  : io S :=
  match xs with
  | [] => ret s
  | x :: xs' => bind (body x s) (for_each xs' body)
  end.

(** *** The framework and the environment *)

(** The configuration loaded when the script is imported. *)
Variable cfg : config.

(** Parameters of a freshly constructed module (the seed is fixed). *)
Variable init_weights : resnet -> weights.
(** Calling a module on an input. *)
Variable net_apply : resnet -> weights -> tensor -> result tensor.
(** [loss.backward()]: gradients of the loss, as a function of the
    parameters, at the current parameters. *)
Variable autograd : (weights -> result scalar) -> weights -> grads.
(** A fresh optimizer state, and the update rule of [optimizer.step()]. *)
Variable init_ostate : algorithm -> ostate.
Variable update_rule :
  algorithm -> Q -> ostate -> weights -> grads -> weights * ostate.
(** Files present when the process starts. *)
Variable files : gmap string checkpoint.
(** The loaders over the shard of a replica, by number of replicas and
    rank. *)
Variable train_loader : Z -> Z -> dataloader.
Variable test_loader : Z -> Z -> dataloader.

Record module : Type := {
  arch : resnet;
  params : weights
}.

Record optimizer : Type := {
  opt_algorithm : algorithm;
  opt_lr : Q;
  opt_state : ostate
}.

(** [model(x)] *)
Definition call (model : module) (x : tensor) : result tensor :=
  net_apply (arch model) (params model) x.

(** [optim.Adam(model.parameters(), lr=...)] *)
Definition optim_Adam (lr : Q) : optimizer :=
  {| opt_algorithm := Adam; opt_lr := lr; opt_state := init_ostate Adam |}.

(** [optimizer.zero_grad(); loss.backward(); optimizer.step()] for the
    loss of [forward] on [data]. *)
Definition backward_step (data : batch) (gpu : Z) (model : module)
    (optimizer_ : optimizer) : module * optimizer :=
  let loss_of w :=
    let? r := forward data (net_apply (arch model) w) gpu MSELoss_none in
    ok r.1 in
  let g := autograd loss_of (params model) in
  let (w', s') :=
    update_rule (opt_algorithm optimizer_) (opt_lr optimizer_)
      (opt_state optimizer_) (params model) g in
  ({| arch := arch model; params := w' |},
   {| opt_algorithm := opt_algorithm optimizer_;
      opt_lr := opt_lr optimizer_; opt_state := s' |}).

(** [torch.load(path)] and [model.load_state_dict(obj['model'])] *)
Definition torch_load (path : string) : result checkpoint :=
  match files !! path with
  | Some obj => ok obj
  | None => raise (FileNotFoundError path)
  end.

Definition load_model_state (obj : checkpoint) (model : module)
  : result module :=
  match obj !! "model" with
  | Some (ModelState w) => ok {| arch := arch model; params := w |}
  | Some (OptimizerState _ _ _) =>
      raise (RuntimeError "Error(s) in loading state_dict")
  | None => raise (KeyError "model")
  end.

Definition log_dir : string := "../input/".

(** ** [train] *)

(** The variables the training loop carries from one step to the next. *)
Record train_state : Type := {
  ts_model : module;
  ts_optimizer : optimizer;
  ts_tr_it : iterator;
  ts_losses_train : list scalar
}.

(** The body of the inner loop, for one [index] of [epoch]. *)
Definition train_step (gpu : Z) (train_dataloader : dataloader)
    (checkpoint_ : Z) (epoch index : Z) (s : train_state)
  : io train_state :=
  bind (lift
    match next (ts_tr_it s) with
    | inl StopIteration =>
        let tr_it := iter train_dataloader in
        next tr_it
    | r => r
    end) (fun '(data, tr_it) =>
  let model := ts_model s in
  let optimizer_ := ts_optimizer s in
  bind (lift (forward data (call model) gpu MSELoss_none)) (fun '(loss, _) =>
  (* Backward pass *)
  let (model, optimizer_) := backward_step data gpu model optimizer_ in
  bind (tell (OptimizerStep epoch index data
                (opt_algorithm optimizer_) (opt_lr optimizer_))) (fun _ =>
  let losses_train := ts_losses_train s ++ [loss] in
  bind (lift (py_mod index checkpoint_)) (fun r =>
  bind
    (if (r =? 0)%Z && negb (index =? 0)%Z && (gpu =? 0)%Z
     then
       let state : checkpoint :=
         <["optimizer" := OptimizerState (opt_algorithm optimizer_)
                            (opt_lr optimizer_) (opt_state optimizer_)]>
           (<["model" := ModelState (params model)]> ∅) in
       tell (TorchSave
               (log_dir +:+ "resnet_" +:+ pretty epoch +:+ "_"
                  +:+ pretty index +:+ ".pth")
               state)
     else ret tt) (fun _ =>
  ret {| ts_model := model; ts_optimizer := optimizer_;
         ts_tr_it := tr_it; ts_losses_train := losses_train |}))))).

(** One epoch: a fresh iterator, an empty list of losses, and one step for
    each index of [range(len(train_dataloader))]. *)
Definition train_epoch (gpu : Z) (train_dataloader : dataloader)
    (checkpoint_ : Z) (epoch : Z) (mo : module * optimizer)
  : io (module * optimizer) :=
  let tr_it := iter train_dataloader in
  let losses_train : list scalar := [] in
  bind
    (for_each (py_range (Z.of_nat (dl_len train_dataloader)))
       (train_step gpu train_dataloader checkpoint_ epoch)
       {| ts_model := mo.1; ts_optimizer := mo.2; ts_tr_it := tr_it;
          ts_losses_train := losses_train |})
    (fun s => ret (ts_model s, ts_optimizer s)).

Definition train (gpu : Z) (args : namespace) : io unit :=
  (* distributed training initialization *)
  bind (tell (InitProcessGroup (world_size args) gpu)) (fun _ =>
  (* INIT MODEL *)
  bind (lift (build_model cfg)) (fun model_ =>
  let model := {| arch := model_; params := init_weights model_ |} in
  let optimizer_ := optim_Adam (1 # 1000) in
  (* Load the Train Data *)
  let train_dataloader := train_loader (world_size args) gpu in
  (* loading pretrain model *)
  bind (lift
    (if negb (model_num (cfg_train_params cfg) =? 0)%Z
     then
       let model_path :=
         log_dir +:+ "resnet_"
           +:+ pretty (model_num (cfg_train_params cfg)) +:+ ".pth" in
       let? obj := torch_load model_path in
       load_model_state obj model
     else ok model)) (fun model =>
  (* TRAIN LOOP *)
  let checkpoint_ := checkpoint_every_n_steps (cfg_train_params cfg) in
  bind
    (for_each (py_range (max_num_epochs (cfg_train_params cfg)))
       (train_epoch gpu train_dataloader checkpoint_)
       (model, optimizer_))
    (fun _ => ret tt)))).

(** ** [test] *)

(** [np.concatenate] of one-dimensional arrays. *)
Definition concatenate_1d (arrs : list (list Z)) : result (list Z) :=
  match arrs with
  | [] => raise (ValueError "need at least one array to concatenate")
  | _ => ok (concat arrs)
  end.

(** [np.concatenate] along the first axis: the other dimensions have to
    agree. *)
Definition concatenate (arrs : list tensor) : result tensor :=
  match arrs with
  | [] => raise (ValueError "need at least one array to concatenate")
  | a :: _ =>
      match shape a with
      | [] =>
          raise (ValueError "zero-dimensional arrays cannot be concatenated")
      | _ :: rest =>
          if forallb (fun t => bool_decide (tail (shape t) = rest)
                               && negb (bool_decide (shape t = []))) arrs
          then ok {| shape := sum_list (map (fun t => hd 0 (shape t)) arrs)
                                :: rest;
                     data := concat (map data arrs) |}
          else raise (ValueError "all the input array dimensions must match")
      end
  end.

(** [l5kit.evaluation.write_pred_csv] for single-mode predictions: it
    asserts that the coordinates are [(N, T, 2)] and that there are [N]
    timestamps and [N] track ids, then writes one line for each of them. *)
Definition write_pred_csv (path : string) (timestamps track_ids : list Z)
    (coords : tensor) : io unit :=
  match shape coords with
  | [num_example; future_len; num_coords] =>
      if bool_decide (num_coords = 2)
         && bool_decide (length timestamps = num_example)
         && bool_decide (length track_ids = num_example)
      then tell (WritePredCsv path timestamps track_ids coords)
      else lift (raise AssertionError)
  | _ => lift (raise AssertionError)
  end.

(** The lines of a written file, header aside. *)
Definition csv_rows (e : event) : list (Z * Z * list float32) :=
  match e with
  | WritePredCsv _ timestamps track_ids coords =>
      zip (zip timestamps track_ids)
          (chunks (hd 0 (shape coords)) (numel (tail (shape coords)))
             (data coords))
  | _ => []
  end.

(** What the evaluation loop has stored so far. *)
Record eval_state : Type := {
  es_future_coords_offsets_pd : list tensor;
  es_timestamps : list (list Z);
  es_agent_ids : list (list Z)
}.

(** [for data in progress_bar: ...]: the loop ends when the iterator is
    exhausted and lets any other exception through. *)
Fixpoint eval_loop (gpu : Z) (model : module) (it : iterator)
    (s : eval_state) : result eval_state :=
  match it with
  | [] => ok s
  | inl StopIteration :: _ => ok s
  | inl e :: _ => raise e
  | inr data :: it' =>
      let? r := forward data (call model) gpu MSELoss_none in
      let ouputs := r.2 in
      eval_loop gpu model it'
        {| es_future_coords_offsets_pd :=
             es_future_coords_offsets_pd s ++ [ouputs];
           es_timestamps := es_timestamps s ++ [timestamp data];
           es_agent_ids := es_agent_ids s ++ [track_id data] |}
  end.

Definition test (gpu : Z) (args : namespace) : io unit :=
  (* distributed training initialization *)
  bind (tell (InitProcessGroup (world_size args) gpu)) (fun _ =>
  (* INIT MODEL *)
  bind (lift (build_model cfg)) (fun model_ =>
  let model := {| arch := model_; params := init_weights model_ |} in
  (* Load the test Data *)
  let test_dataloader := test_loader (world_size args) gpu in
  (* load trained model *)
  let model_path :=
    log_dir +:+ "resnet_"
      +:+ pretty (test_model_num (cfg_test_params cfg)) +:+ ".pth" in
  bind (lift (torch_load model_path)) (fun checkpoint_ =>
  bind (lift (load_model_state checkpoint_ model)) (fun model =>
  (* EVAL LOOP *)
  bind (lift (eval_loop gpu model (iter test_dataloader)
                {| es_future_coords_offsets_pd := [];
                   es_timestamps := [];
                   es_agent_ids := [] |})) (fun s =>
  (* Save results *)
  let pred_path := "./pred.csv" in
  bind (lift (concatenate_1d (es_timestamps s))) (fun timestamps =>
  bind (lift (concatenate_1d (es_agent_ids s))) (fun track_ids =>
  bind (lift (concatenate (es_future_coords_offsets_pd s))) (fun coords =>
  write_pred_csv pred_path timestamps track_ids coords)))))))).

(** ** [main] *)

Inductive entry : Type :=
  | EntryTrain
  | EntryTest.

(** A call [mp.spawn(fn, nprocs=..., args=(args,))]. *)
Record spawn_call : Type := {
  spawn_fn : entry;
  spawn_nprocs : Z;
  spawn_args : namespace
}.

Definition main (parsed : parsed_args) : spawn_call :=
  let args :=
    {| flags := parsed; world_size := (gpus parsed * nodes parsed)%Z |} in
  if negb (truthy (load_the_state (cfg_train_params cfg)))
  then {| spawn_fn := EntryTrain; spawn_nprocs := gpus (flags args);
          spawn_args := args |}
  else {| spawn_fn := EntryTest; spawn_nprocs := gpus (flags args);
          spawn_args := args |}.

(** The processes [mp.spawn] starts: [fn(i, args)] for each [i] of
    [range(nprocs)]. *)
Definition mp_spawn (c : spawn_call) : list (io unit) :=
  map (fun i =>
         match spawn_fn c with
         | EntryTrain => train i (spawn_args c)
         | EntryTest => test i (spawn_args c)
         end)
      (py_range (spawn_nprocs c)).

End Driver.

Arguments ModelState {weights ostate} w.
Arguments OptimizerState {weights ostate} a lr s.
Arguments InitProcessGroup {weights ostate} world_size rank.
Arguments OptimizerStep {weights ostate} epoch index data a lr.
Arguments TorchSave {weights ostate} path obj.
Arguments WritePredCsv {weights ostate} path timestamps track_ids coords.
Arguments ret {weights ostate A} x.
Arguments bind {weights ostate A B} m k.
Arguments lift {weights ostate A} r.
Arguments tell {weights ostate} e.
Arguments for_each {weights ostate X S} xs body s.
Arguments csv_rows {weights ostate} e.
Arguments write_pred_csv {weights ostate} path timestamps track_ids coords.
Arguments Build_module {weights} arch params.
Arguments arch {weights} m.
Arguments params {weights} m.
Arguments Build_optimizer {ostate} opt_algorithm opt_lr opt_state.
Arguments opt_algorithm {ostate} o.
Arguments opt_lr {ostate} o.
Arguments opt_state {ostate} o.
Arguments ts_model {weights ostate} t.
Arguments ts_optimizer {weights ostate} t.
Arguments ts_tr_it {weights ostate} t.
Arguments ts_losses_train {weights ostate} t.
Arguments Build_train_state {weights ostate}.
Arguments call {weights} net_apply model x.
Arguments load_model_state {weights ostate} obj model.
Arguments torch_load {weights ostate} files path.
Arguments eval_loop {weights} net_apply gpu model it s.

Arguments backward_step {weights grads ostate} net_apply autograd update_rule
  data gpu model optimizer_.
Arguments optim_Adam {ostate} init_ostate lr.
Arguments train_step {weights grads ostate} net_apply autograd update_rule
  gpu train_dataloader checkpoint_ epoch index s.
Arguments train_epoch {weights grads ostate} net_apply autograd update_rule
  gpu train_dataloader checkpoint_ epoch mo.
Arguments train {weights grads ostate} cfg init_weights net_apply autograd
  init_ostate update_rule files train_loader gpu args.
Arguments test {weights ostate} cfg init_weights net_apply files test_loader
  gpu args.
Arguments mp_spawn {weights grads ostate} cfg init_weights net_apply autograd
  init_ostate update_rule files train_loader test_loader c.

(** ** Reading a log *)

(** The paths written by [torch.save], in order. *)
Definition saved_paths {weights ostate} (log : list (event weights ostate))
  : list string :=
  omap (fun ev => match ev with TorchSave p _ => Some p | _ => None end) log.

(** The epoch and index of each [optimizer.step()], in order. *)
Definition steps_of {weights ostate} (log : list (event weights ostate))
  : list (Z * Z) :=
  omap (fun ev => match ev with
                  | OptimizerStep e i _ _ _ => Some (e, i)
                  | _ => None
                  end) log.

(** The algorithm and learning rate of each [optimizer.step()], in order. *)
Definition step_optimizers {weights ostate}
    (log : list (event weights ostate)) : list (algorithm * Q) :=
  omap (fun ev => match ev with
                  | OptimizerStep _ _ _ a lr => Some (a, lr)
                  | _ => None
                  end) log.

(** The batches a [for] loop over an iterator works on: those yielded before
    the iterator raises (or ends). *)
Fixpoint evaluated (it : iterator) : list batch :=
  match it with
  | inr b :: it' => b :: evaluated it'
  | _ => []
  end.

(** The condition under which step [index] on process [gpu] is followed by
    a checkpoint. *)
Definition checkpoint_due (gpu checkpoint_ index : Z) : bool :=
  negb (checkpoint_ =? 0)%Z && (index mod checkpoint_ =? 0)%Z
  && negb (index =? 0)%Z && (gpu =? 0)%Z.

(** The name of the checkpoint of step [index] of [epoch]. *)
Definition checkpoint_path (epoch index : Z) : string :=
  log_dir +:+ "resnet_" +:+ pretty epoch +:+ "_" +:+ pretty index +:+ ".pth".

(** The configuration with another value of [load_the_state], and the
    parsed flags with another node rank. *)
Definition set_load_the_state (v : pyval) (cfg : config) : config :=
  {| cfg_model_params := cfg_model_params cfg;
     cfg_train_params :=
       {| model_num := model_num (cfg_train_params cfg);
          checkpoint_every_n_steps :=
            checkpoint_every_n_steps (cfg_train_params cfg);
          max_num_epochs := max_num_epochs (cfg_train_params cfg);
          load_the_state := v |};
     cfg_test_params := cfg_test_params cfg |}.

Definition set_nr (v : Z) (p : parsed_args) : parsed_args :=
  {| nodes := nodes p; gpus := gpus p; nr := v |}.

(** ** A configuration and a small instance of the framework

    They serve to run the definitions on concrete inputs. *)

Definition example_cfg (flag : pyval) (every epochs : Z) : config :=
  {| cfg_model_params :=
       {| history_num_frames := 1; future_num_frames := 2 |};
     cfg_train_params :=
       {| model_num := 0; checkpoint_every_n_steps := every;
          max_num_epochs := epochs; load_the_state := flag |};
     cfg_test_params := {| test_model_num := 7 |} |}.

(** The backbone [build_model] returns for it. *)
Definition example_model : resnet :=
  set_fc {| in_features := 2048; out_features := 4; linear_bias := true |}
    (set_conv1 {| in_channels := 7; out_channels := 64;
                  kernel_size := (7, 7)%Z; stride := (2, 2)%Z;
                  padding := (3, 3)%Z; conv_bias := false |}
       (resnet50 false)).

(** Single-precision numbers written as integers and as quotients. *)
Definition f32s (l : list Z) : list float32 := map f32_of_Z l.

Definition f32_of_Q (q : Q) : float32 :=
  f32_div (f32_of_Z (Qnum q)) (f32_of_Z (Zpos (Qden q))).

(** One agent, two future steps of which the second is not available. *)
Definition example_batch : batch :=
  {| image := {| shape := [1; 7; 1; 1]; data := replicate 7 f32_zero |};
     target_availabilities := {| shape := [1; 2]; data := f32s [1; 0]%Z |};
     target_positions :=
       {| shape := [1; 2; 2]; data := f32s [1; 2; 3; 4]%Z |};
     timestamp := [1000%Z];
     track_id := [7%Z] |}.

(** A network that answers its single parameter at every output. *)
Definition example_net (m : resnet) (w : Q) (x : tensor) : result tensor :=
  let b := hd 0 (shape x) in
  let n := Z.to_nat (out_features (fc m)) in
  ok {| shape := [b; n]; data := replicate (b * n) (f32_of_Q w) |}.

Definition example_init_weights (m : resnet) : Q := 3%Q.

Definition example_autograd (loss_of : Q -> result scalar) (w : Q) : Q :=
  1%Q.

Definition example_update_rule (a : algorithm) (lr : Q) (steps : nat)
    (w g : Q) : Q * nat :=
  ((w - lr * g)%Q, S steps).

Definition example_init_ostate (a : algorithm) : nat := 0.

Definition example_files : gmap string (checkpoint Q nat) :=
  {[ "../input/resnet_7.pth" := {[ "model" := ModelState 5%Q ]} ]}.

(** A loader that announces three batches and yields two. *)
Definition example_loader (num_replicas rank : Z) : dataloader :=
  {| dl_len := 3; dl_items := [inr example_batch; inr example_batch] |}.

Definition example_test : io Q nat unit :=
  test (example_cfg (PyBool true) 2 2) example_init_weights example_net
    example_files example_loader 0
    {| flags := default_args; world_size := 4 |}.

Definition example_args : namespace :=
  {| flags := default_args; world_size := 4 |}.

(** Process 0 of a training run of two epochs, with a checkpoint every two
    steps. *)
Definition example_train : io Q nat unit :=
  train (example_cfg (PyBool false) 2 2) example_init_weights example_net
    example_autograd example_init_ostate example_update_rule example_files
    example_loader 0 example_args.

(** ** Further readings of a run *)

(** The batch of each [optimizer.step()], in order. *)
Definition batches_of {weights ostate} (log : list (event weights ostate))
  : list batch :=
  omap (fun ev => match ev with
                  | OptimizerStep _ _ data _ _ => Some data
                  | _ => None
                  end) log.

(** Whether a character occurs in a string. *)
Fixpoint occurs (c : ascii) (s : string) : bool :=
  match s with
  | EmptyString => false
  | String c' s' => Ascii.eqb c c' || occurs c s'
  end.

(** The file [train] and [test] load for a model number. *)
Definition load_path (n : Z) : string :=
  log_dir +:+ "resnet_" +:+ pretty n +:+ ".pth".

(** The configuration with another [model_num] for [train]. *)
Definition set_model_num (n : Z) (cfg : config) : config :=
  {| cfg_model_params := cfg_model_params cfg;
     cfg_train_params :=
       {| model_num := n;
          checkpoint_every_n_steps :=
            checkpoint_every_n_steps (cfg_train_params cfg);
          max_num_epochs := max_num_epochs (cfg_train_params cfg);
          load_the_state := load_the_state (cfg_train_params cfg) |};
     cfg_test_params := cfg_test_params cfg |}.

(** A second agent, and a loader that announces three batches and yields
    one of each agent. *)
Definition example_batch2 : batch :=
  {| image :=
       {| shape := [1; 7; 1; 1]; data := replicate 7 (f32_of_Z 1) |};
     target_availabilities := {| shape := [1; 2]; data := f32s [1; 1]%Z |};
     target_positions :=
       {| shape := [1; 2; 2]; data := f32s [3; 3; 0; 0]%Z |};
     timestamp := [2000%Z];
     track_id := [8%Z] |}.

Definition example_loader2 (num_replicas rank : Z) : dataloader :=
  {| dl_len := 3; dl_items := [inr example_batch; inr example_batch2] |}.

(** A loader that yields nothing. *)
Definition empty_loader (num_replicas rank : Z) : dataloader :=
  {| dl_len := 0; dl_items := [] |}.

(** A loader whose iterator raises after its first batch. *)
Definition failing_loader (num_replicas rank : Z) : dataloader :=
  {| dl_len := 2;
     dl_items := [inr example_batch; inl (RuntimeError "worker failed")] |}.

(** * Properties *)

(** ** The backbone *)

Lemma Conv2d_ok in_c out_c k s p b c :
  Conv2d in_c out_c k s p b = ok c ->
  c = {| in_channels := in_c; out_channels := out_c; kernel_size := k;
         stride := s; padding := p; conv_bias := b |}
  /\ (0 <= in_c)%Z /\ (0 <= out_c)%Z.
Proof.
  unfold Conv2d. destruct (in_c <? 0)%Z eqn:Hi; [discriminate|].
  destruct (out_c <? 0)%Z eqn:Ho; [discriminate|]. simpl.
  intros [= <-]. repeat split; lia.
Qed.

Lemma Linear_ok in_f out_f l :
  Linear in_f out_f = ok l ->
  l = {| in_features := in_f; out_features := out_f; linear_bias := true |}
  /\ (0 <= in_f)%Z /\ (0 <= out_f)%Z.
Proof.
  unfold Linear. destruct (in_f <? 0)%Z eqn:Hi; [discriminate|].
  destruct (out_f <? 0)%Z eqn:Ho; [discriminate|]. simpl.
  intros [= <-]. repeat split; lia.
Qed.

Lemma build_model_inv cfg_ m :
  build_model cfg_ = ok m ->
  exists c l,
    Conv2d (3 + (history_num_frames (cfg_model_params cfg_) + 1) * 2) 64
      (7, 7)%Z (2, 2)%Z (3, 3)%Z false = ok c
    /\ Linear 2048 (2 * future_num_frames (cfg_model_params cfg_)) = ok l
    /\ m = set_fc l (set_conv1 c (resnet50 false)).
Proof.
  unfold build_model. simpl.
  destruct (Conv2d _ _ _ _ _ _) as [e|c] eqn:Hc; [discriminate|]. simpl.
  destruct (Linear _ _) as [e|l] eqn:Hl; [discriminate|]. simpl.
  intros [= <-]. eauto.
Qed.

Lemma build_model_total cfg_ :
  (0 <= 3 + 2 * (history_num_frames (cfg_model_params cfg_) + 1))%Z ->
  (0 <= future_num_frames (cfg_model_params cfg_))%Z ->
  exists m, build_model cfg_ = ok m.
Proof.
  intros Hh Hf. unfold build_model, Conv2d, Linear. simpl.
  destruct (Z.ltb_spec
              (3 + (history_num_frames (cfg_model_params cfg_) + 1) * 2) 0);
    [lia|]. simpl.
  destruct (Z.ltb_spec (2 * future_num_frames (cfg_model_params cfg_)) 0);
    [lia|]. simpl. eauto.
Qed.

(** C2: [build_model] returns the backbone with two layers replaced. The
    first convolution takes [3 + 2 * (history_num_frames + 1)] input
    channels, keeps the output channels, kernel size, stride and padding of
    the convolution it replaces and has no bias; the final linear layer maps
    2048 features to [2 * future_num_frames]; every other layer is the one
    [resnet50] constructed. (The framework builds the two layers exactly
    when their dimensions are not negative.) *)
Theorem build_model_replaces_two_layers (cfg_ : config) :
  let r := resnet50 false in
  let h := history_num_frames (cfg_model_params cfg_) in
  let f := future_num_frames (cfg_model_params cfg_) in
  (0 <= 3 + 2 * (h + 1))%Z -> (0 <= f)%Z ->
  exists m,
    build_model cfg_ = ok m
    /\ conv1 m = {| in_channels := 3 + 2 * (h + 1);
                    out_channels := out_channels (conv1 r);
                    kernel_size := kernel_size (conv1 r);
                    stride := stride (conv1 r);
                    padding := padding (conv1 r);
                    conv_bias := false |}
    /\ fc m = {| in_features := 2048; out_features := 2 * f;
                 linear_bias := true |}
    /\ bn1 m = bn1 r /\ relu m = relu r /\ maxpool m = maxpool r
    /\ layer1 m = layer1 r /\ layer2 m = layer2 r
    /\ layer3 m = layer3 r /\ layer4 m = layer4 r
    /\ avgpool m = avgpool r.
Proof.
  intros r h f Hh Hf. destruct (build_model_total cfg_ Hh Hf) as [m Hm].
  exists m. split; [done|].
  destruct (build_model_inv _ _ Hm) as (c & l & Hc & Hl & ->).
  apply Conv2d_ok in Hc as (-> & _ & _). apply Linear_ok in Hl as (-> & _ & _).
  simpl. repeat split. f_equal. subst h. lia.
Qed.

Lemma build_model_replaces_two_layers_witness :
  exists m,
    build_model (example_cfg (PyBool false) 2 1) = ok m
    /\ conv1 m = {| in_channels := 7; out_channels := 64;
                    kernel_size := (7, 7)%Z; stride := (2, 2)%Z;
                    padding := (3, 3)%Z; conv_bias := false |}
    /\ fc m = {| in_features := 2048; out_features := 4;
                 linear_bias := true |}
    /\ bn1 m = BatchNorm2d 64 /\ relu m = ReLU true
    /\ maxpool m = MaxPool2d 3 2 1
    /\ layer1 m = Bottlenecks 64 3 1 /\ layer2 m = Bottlenecks 128 4 2
    /\ layer3 m = Bottlenecks 256 6 2 /\ layer4 m = Bottlenecks 512 3 2
    /\ avgpool m = AdaptiveAvgPool2d 1 1.
Proof.
  apply (build_model_replaces_two_layers (example_cfg (PyBool false) 2 1));
    simpl; lia.
Defined.

(** C8: the backbone [build_model] returns is not pretrained: [resnet50] is
    called with [pretrained=False], so its weights are freshly
    initialised. *)
Theorem build_model_not_pretrained (cfg_ : config) (m : resnet) :
  build_model cfg_ = ok m -> weights_from m = RandomInit.
Proof.
  intros Hm. destruct (build_model_inv _ _ Hm) as (c & l & _ & _ & ->). done.
Qed.

Lemma build_model_not_pretrained_witness :
  exists m, build_model (example_cfg (PyBool false) 2 1) = ok m
            /\ weights_from m = RandomInit.
Proof.
  eexists. split; [reflexivity|].
  eapply (build_model_not_pretrained (example_cfg (PyBool false) 2 1)).
  reflexivity.
Defined.

(** ** Row-major data and broadcasting *)

Section Chunks.
Context {A : Type}.
Implicit Types (l : list A) (n sz : nat).

Lemma chunks_length n sz l : length (chunks n sz l) = n.
Proof.
  revert l; induction n as [|n IH]; intros l; simpl; [done|]. by rewrite IH.
Qed.

Lemma chunks_concat n sz l :
  length l = n * sz -> concat (chunks n sz l) = l.
Proof.
  revert l; induction n as [|n IH]; intros l Hl; simpl in *.
  - by destruct l.
  - rewrite IH; [apply take_drop|]. rewrite length_drop. lia.
Qed.

Lemma chunks_sizes n sz l :
  length l = n * sz -> Forall (fun c => length c = sz) (chunks n sz l).
Proof.
  revert l; induction n as [|n IH]; intros l Hl; simpl in *; constructor.
  - rewrite length_take. lia.
  - apply IH. rewrite length_drop. lia.
Qed.
End Chunks.

Lemma mapM_pointwise {A B} (f : A -> option B) (g : A -> B) (l : list A) :
  Forall (fun x => f x = Some (g x)) l -> mapM f l = Some (g <$> l).
Proof.
  intros H. apply mapM_Some. apply Forall2_fmap_r.
  induction H; constructor; auto.
Qed.

Lemma numel_app s1 s2 : numel (s1 ++ s2) = numel s1 * numel s2.
Proof.
  induction s1 as [|n s1 IH]; simpl; [lia|]. rewrite IH. lia.
Qed.

Lemma pad_shape_full n s : n <= length s -> pad_shape n s = s.
Proof. intros H. unfold pad_shape. by replace (n - length s) with 0 by lia. Qed.

Lemma concat_replicate_row {A} (k : nat) (x : A) :
  concat (mjoin (replicate k [[x]])) = replicate k x.
Proof. induction k as [|k IH]; simpl; [done|]. by rewrite IH. Qed.

Lemma expand_same s d : length d = numel s -> expand s s d = Some d.
Proof.
  revert d; induction s as [|n s IH]; intros d Hd; simpl in *; [done|].
  rewrite (mapM_pointwise _ id).
  - simpl. rewrite decide_True by done. rewrite list_fmap_id.
    by rewrite chunks_concat.
  - eapply Forall_impl; [by apply chunks_sizes|]. simpl. intros c Hc.
    by apply IH.
Qed.

Lemma expand_last s k d :
  length d = numel s ->
  expand (s ++ [1]) (s ++ [k]) d = Some (d ≫= replicate k).
Proof.
  revert d; induction s as [|n s IH]; intros d Hd; simpl in *.
  - destruct d as [|x [|? ?]]; simplify_eq/=.
    destruct (decide (1 = k)) as [<-|]; simpl; [done|].
    by rewrite concat_replicate_row, app_nil_r.
  - rewrite numel_app. simpl. rewrite Nat.mul_1_r.
    rewrite (mapM_pointwise _ (fun c => c ≫= replicate k)).
    + simpl. rewrite decide_True by done. f_equal.
      rewrite <- (chunks_concat n (numel s) d) at 2 by done.
      generalize (chunks n (numel s) d). intros cs.
      induction cs as [|c cs IHcs]; simpl; [done|].
      rewrite bind_app. f_equal. exact IHcs.
    + eapply Forall_impl; [by apply chunks_sizes|]. simpl. intros c Hc.
      by apply IH.
Qed.

Lemma broadcast_dim_same n : broadcast_dim n n = Some n.
Proof. unfold broadcast_dim. by rewrite decide_True. Qed.

Lemma broadcast_dim_one n : broadcast_dim n 1 = Some n.
Proof.
  unfold broadcast_dim. repeat case_decide; congruence.
Qed.

Lemma broadcast_shape_same s : broadcast_shape s s = Some s.
Proof.
  unfold broadcast_shape. rewrite Nat.max_id, pad_shape_full by done.
  induction s as [|n s IH]; simpl; [done|].
  rewrite broadcast_dim_same. simpl. by rewrite IH.
Qed.

Lemma broadcast_shape_last s k :
  broadcast_shape (s ++ [k]) (s ++ [1]) = Some (s ++ [k]).
Proof.
  unfold broadcast_shape. rewrite !length_app. simpl. rewrite Nat.max_id.
  rewrite !pad_shape_full by (rewrite length_app; simpl; lia).
  induction s as [|n s IH]; simpl.
  - by rewrite broadcast_dim_one.
  - rewrite broadcast_dim_same. simpl. by rewrite IH.
Qed.

Lemma broadcast_with_same f a b :
  shape a = shape b -> tensor_wf a -> tensor_wf b ->
  broadcast_with f a b =
    ok {| shape := shape a; data := zip_with f (data a) (data b) |}.
Proof.
  unfold broadcast_with, tensor_wf. intros Hs Ha Hb. rewrite <- Hs.
  rewrite broadcast_shape_same, Nat.max_id, pad_shape_full by done.
  rewrite !expand_same by congruence. done.
Qed.

Lemma tmul_unsqueeze_last s k l a :
  shape l = s ++ [k] -> shape a = s -> tensor_wf l -> tensor_wf a ->
  tmul l (unsqueeze_last a) =
    ok {| shape := s ++ [k];
          data := zip_with f32_mul (data l) (data a ≫= replicate k) |}.
Proof.
  unfold tmul, broadcast_with, unsqueeze_last, tensor_wf. simpl.
  intros Hl Ha Wl Wa. rewrite Hl, Ha in *.
  rewrite broadcast_shape_last. rewrite !length_app. simpl. rewrite Nat.max_id.
  rewrite !pad_shape_full by (rewrite length_app; simpl; lia).
  rewrite expand_same by done. by rewrite expand_last.
Qed.

(** ** The masked loss *)

Lemma zip_with_nth {A B C} (f : A -> B -> C) (l1 : list A) (l2 : list B)
    (d1 : A) (d2 : B) :
  length l1 = length l2 ->
  zip_with f l1 l2
  = map (fun i => f (nth i l1 d1) (nth i l2 d2)) (seq 0 (length l1)).
Proof.
  revert l2; induction l1 as [|x l1 IH]; intros [|y l2] Hl; simplify_eq/=;
    [done|].
  f_equal. rewrite <- seq_shift, map_map. by apply IH.
Qed.

Lemma length_bind_replicate {A} (k : nat) (l : list A) :
  length (l ≫= replicate k) = length l * k.
Proof.
  induction l as [|x l IH]; [done|].
  rewrite bind_cons, length_app, length_replicate, IH. simpl. lia.
Qed.

Lemma nth_replicate_lt {A} (k i : nat) (x d : A) :
  i < k -> nth i (replicate k x) d = x.
Proof.
  revert i; induction k as [|k IH]; intros [|i] Hi; simpl; try lia; [done|].
  apply IH. lia.
Qed.

Lemma nth_bind_replicate {A} (k : nat) (l : list A) (d : A) (i : nat) :
  i < length l * k -> nth i (l ≫= replicate k) d = nth (i / k) l d.
Proof.
  revert i; induction l as [|x l IH]; intros i Hi; [simpl in *; lia|].
  rewrite bind_cons. simpl in Hi.
  assert (k <> 0) by lia.
  destruct (decide (i < k)) as [Hlt|Hge].
  - rewrite app_nth1 by (rewrite length_replicate; lia).
    rewrite Nat.div_small by done.
    by apply nth_replicate_lt.
  - rewrite app_nth2 by (rewrite length_replicate; lia).
    rewrite length_replicate, IH by lia.
    replace i with ((i - k) + 1 * k) at 2 by lia.
    rewrite Nat.div_add by done. by rewrite Nat.add_1_r.
Qed.

(** *** Zeros, infinities and NaN *)

Lemma f32_same_refl x : f32_same x x.
Proof. by left. Qed.

Lemma f32_same_sym x y : f32_same x y -> f32_same y x.
Proof. intros [->|[? ?]]; [by left|by right]. Qed.

Lemma f32_same_trans x y z : f32_same x y -> f32_same y z -> f32_same x z.
Proof.
  intros [->|[Hx Hy]] [->|[Hy' Hz]]; try (by left); by right.
Qed.

Lemma f32_mul_zero_finite x z :
  is_zero z = true -> is_finite x = true -> is_zero (f32_mul x z) = true.
Proof. by destruct x, z. Qed.


Lemma f32_add_zero acc z : is_zero z = true -> f32_same (f32_add acc z) acc.
Proof.
  destruct z as [sz| | |]; try done. intros _.
  destruct acc as [s| | |s m e]; try (by left).
  right. by destruct s, sz.
Qed.

Lemma f32_add_same acc acc' y :
  f32_same acc acc' -> f32_same (f32_add acc y) (f32_add acc' y).
Proof.
  intros [->|[Ha Ha']]; [by left|].
  destruct acc as [s| | |]; try done. destruct acc' as [s'| | |]; try done.
  destruct y as [sy| | |]; try (by left).
  right. by destruct s, s', sy.
Qed.

Lemma f32_div_same x x' d :
  f32_same x x' -> f32_same (f32_div x d) (f32_div x' d).
Proof.
  intros [->|[Hx Hx']]; [by left|].
  destruct x as [s| | |]; try done. destruct x' as [s'| | |]; try done.
  destruct d as [sd|sd| |sd m e]; try (by left); by right.
Qed.

Lemma f32_add_nan_r x : f32_add x S754_nan = S754_nan.
Proof. by destruct x. Qed.

Lemma fold_left_add_nan l : fold_left f32_add l S754_nan = S754_nan.
Proof. induction l as [|x l IH]; [done|]. exact IH. Qed.

Lemma fold_left_add_In_nan l acc :
  In S754_nan l -> fold_left f32_add l acc = S754_nan.
Proof.
  revert acc. induction l as [|x l IH]; intros acc; [done|].
  intros [->|Hin]; simpl.
  - rewrite f32_add_nan_r. apply fold_left_add_nan.
  - by apply IH.
Qed.

(** A NaN among the elements makes their mean NaN. *)
Lemma mean_nan sh l :
  In S754_nan l -> mean {| shape := sh; data := l |} = S754_nan.
Proof.
  intros Hin. unfold mean, f32_sum. simpl.
  by rewrite fold_left_add_In_nan.
Qed.

(** Elements that are zero can be left out of a sum. *)
Lemma fold_left_add_filter (f : nat -> float32) (P : nat -> bool)
    (l : list nat) (acc acc' : float32) :
  f32_same acc acc' ->
  (forall i, In i l -> P i = false -> is_zero (f i) = true) ->
  f32_same (fold_left f32_add (map f l) acc)
    (fold_left f32_add (map f (filter (fun i => P i = true) l)) acc').
Proof.
  revert acc acc'. induction l as [|i l IH]; intros acc acc' Hacc H; [done|].
  assert (H' : forall j, In j l -> P j = false -> is_zero (f j) = true).
  { intros j Hj. apply H. by right. }
  rewrite filter_cons. simpl. destruct (P i) eqn:HP.
  - rewrite decide_True by done. simpl. apply IH; [|done].
    by apply f32_add_same.
  - rewrite decide_False by done. apply IH; [|done].
    eapply f32_same_trans; [|exact Hacc].
    apply f32_add_zero, H; [by left|done].
Qed.

(** What [forward] computes on a batch whose targets have the shape of the
    availabilities followed by one dimension. *)
Lemma forward_spec (data_ : batch) (model_ : tensor -> result tensor)
    (device_ : Z) (y : tensor) (s : list nat) (k : nat) :
  shape (target_positions data_) = s ++ [k] ->
  shape (target_availabilities data_) = s ->
  tensor_wf (target_positions data_) ->
  tensor_wf (target_availabilities data_) ->
  model_ (image data_) = ok y ->
  tensor_wf y ->
  numel (shape y) = numel s * k ->
  forward data_ model_ device_ MSELoss_none
  = ok (mean {| shape := s ++ [k];
                data := map (masked_sq_err k (data y)
                               (data (target_positions data_))
                               (data (target_availabilities data_)))
                          (seq 0 (numel s * k)) |},
        {| shape := s ++ [k]; data := data y |}).
Proof.
  intros Ht Ha Wt Wa Hy Wy Hn. unfold forward. rewrite Hy. simpl.
  unfold reshape. rewrite Ht.
  assert (Hk : numel (s ++ [k]) = numel s * k).
  { rewrite numel_app. simpl. lia. }
  rewrite decide_True by congruence. simpl.
  unfold tensor_wf in *. rewrite Ht, Hk in Wt. rewrite Ha in Wa.
  unfold MSELoss_none. rewrite broadcast_with_same; simpl;
    [|done|unfold tensor_wf; simpl; congruence|unfold tensor_wf; congruence].
  rewrite (tmul_unsqueeze_last s k); simpl; [|done|done|..].
  2:{ unfold tensor_wf. simpl. rewrite length_zip_with. lia. }
  2:{ unfold tensor_wf. congruence. }
  do 4 f_equal.
  rewrite (zip_with_nth _ _ _ f32_zero f32_zero);
    [|rewrite length_zip_with, length_bind_replicate; lia].
  rewrite length_zip_with.
  replace (length (data y) `min` _) with (numel s * k) by lia.
  apply map_ext_in. intros i Hi%in_seq. unfold masked_sq_err.
  rewrite nth_bind_replicate by lia. f_equal.
  rewrite (zip_with_nth _ _ _ f32_zero f32_zero) by lia.
  rewrite (nth_indep _ _ (sq_err (nth 0 (data y) f32_zero)
                            (nth 0 (data (target_positions data_))
                               f32_zero)))
    by (rewrite length_map, length_seq; lia).
  rewrite (map_nth (fun i => sq_err (nth i (data y) f32_zero)
                                (nth i (data (target_positions data_))
                                   f32_zero))).
  rewrite seq_nth by lia. done.
Qed.

Lemma mean_map_seq (sh : list nat) (f : nat -> float32) (n : nat) :
  mean {| shape := sh; data := map f (seq 0 n) |}
  = f32_div (f32_sum (map f (seq 0 n))) (f32_of_Z (Z.of_nat n)).
Proof. unfold mean. simpl. by rewrite length_map, length_seq. Qed.




(** C7: when the targets of a batch have shape [(B, future_num_frames, 2)],
    the [(B, 2 * future_num_frames)] output of the network [build_model]
    returns can be reshaped to the targets' shape, and the outputs [forward]
    returns have exactly that shape. *)
Theorem forward_outputs_have_target_shape (cfg_ : config) (m : resnet)
    (data_ : batch) (model_ : tensor -> result tensor) (device_ : Z)
    (y : tensor) (B F : nat) :
  build_model cfg_ = ok m ->
  future_num_frames (cfg_model_params cfg_) = Z.of_nat F ->
  shape (target_positions data_) = [B; F; 2] ->
  shape (target_availabilities data_) = [B; F] ->
  tensor_wf (target_positions data_) ->
  tensor_wf (target_availabilities data_) ->
  model_ (image data_) = ok y ->
  shape y = [B; Z.to_nat (out_features (fc m))] ->
  tensor_wf y ->
  (exists o, reshape (shape (target_positions data_)) y = ok o
             /\ shape o = shape (target_positions data_))
  /\ (exists loss_ outputs,
        forward data_ model_ device_ MSELoss_none = ok (loss_, outputs)
        /\ shape outputs = shape (target_positions data_)).
Proof.
  intros Hm HF Ht Ha Wt Wa Hy Sy Wy.
  destruct (build_model_inv _ _ Hm) as (c & l & _ & Hl & ->).
  apply Linear_ok in Hl as (-> & _ & _). simpl in Sy.
  assert (Hn : numel (shape y) = numel [B; F] * 2).
  { rewrite Sy, HF. simpl. lia. }
  split.
  - unfold reshape. rewrite Ht. rewrite decide_True by (rewrite Hn; simpl; lia).
    eauto.
  - rewrite (forward_spec data_ model_ device_ y [B; F] 2) by done.
    do 2 eexists. split; [reflexivity|]. by rewrite Ht.
Qed.

Lemma forward_outputs_have_target_shape_witness :
  (exists o,
     reshape [1; 2; 2] {| shape := [1; 4]; data := f32s [3; 3; 3; 3]%Z |}
     = ok o /\ shape o = [1; 2; 2])
  /\ (exists loss_ outputs,
        forward example_batch (example_net example_model 3%Q) 0 MSELoss_none
        = ok (loss_, outputs)
        /\ shape outputs = [1; 2; 2]).
Proof.
  apply (forward_outputs_have_target_shape (example_cfg (PyBool false) 2 1)
           example_model example_batch _ 0
           {| shape := [1; 4]; data := f32s [3; 3; 3; 3]%Z |} 1 2);
    reflexivity.
Defined.

(** ** Loops that log *)

Section Loops.
Context {weights ostate : Type}.
Context {X S : Type}.
Implicit Types (xs : list X) (body : X -> S -> io weights ostate S) (s : S).

Lemma for_each_cons x xs body s :
  for_each (x :: xs) body s = bind (body x s) (for_each xs body).
Proof. reflexivity. Qed.

Lemma bind_inl {A B} (m : io weights ostate A)
    (k : A -> io weights ostate B) l e :
  m = (l, inl e) -> bind m k = (l, inl e).
Proof. by intros ->. Qed.

Lemma bind_inr {A B} (m : io weights ostate A)
    (k : A -> io weights ostate B) l x :
  m = (l, inr x) -> bind m k = (l ++ (k x).1, (k x).2).
Proof. intros ->. simpl. by destruct (k x). Qed.

(** No loop has a handler: the exception of a step ends the loop, and the
    log keeps what was done before. *)
Lemma for_each_raise xs x ys body s l1 s1 l2 e :
  for_each xs body s = (l1, ok s1) ->
  body x s1 = (l2, inl e) ->
  for_each (xs ++ x :: ys) body s = (l1 ++ l2, inl e).
Proof.
  revert s l1; induction xs as [|x' xs IH]; intros s l1 Hxs Hx; simpl in *.
  - injection Hxs as <- <-. by rewrite Hx.
  - destruct (body x' s) as [l [e'|s']] eqn:Hb; simpl in *; [discriminate|].
    destruct (for_each xs body s') as [l' r'] eqn:Hf.
    injection Hxs as <- ->.
    rewrite (IH s' l' Hf Hx). by rewrite app_assoc.
Qed.

(** An invariant of the state and a property of the events carry over from
    the body to the loop. *)
Lemma for_each_events (I : S -> Prop) (P : X -> event weights ostate -> Prop)
    xs body s :
  I s ->
  (forall x s, In x xs -> I s ->
     (forall ev, In ev (body x s).1 -> P x ev)
     /\ (forall s', (body x s).2 = ok s' -> I s')) ->
  (forall ev, In ev (for_each xs body s).1 -> exists x, In x xs /\ P x ev)
  /\ (forall s', (for_each xs body s).2 = ok s' -> I s').
Proof.
  revert s; induction xs as [|x xs IH]; intros s Hs Hbody; simpl.
  - split; [intros ? []|]. by intros s' [= <-].
  - destruct (Hbody x s (or_introl eq_refl) Hs) as [Hev Hinv].
    destruct (body x s) as [l [e|s1]] eqn:Hb; simpl in *.
    + split; [|discriminate]. intros ev Hin. exists x. auto.
    + destruct (IH s1 (Hinv _ eq_refl) (fun y t Hy => Hbody y t (or_intror Hy)))
        as [IHev IHinv].
      destruct (for_each xs body s1) as [l' r'] eqn:Hf; simpl in *.
      split; [|done]. intros ev [Hin|Hin]%in_app_or.
      * exists x. auto.
      * destruct (IHev ev Hin) as (y & Hy & HP). exists y. auto.
Qed.

(** When the loop completes, a projection of its log is the concatenation of
    the projections of the steps. *)
Lemma for_each_omap {T} (f : event weights ostate -> option T)
    (I : S -> Prop) (g : X -> list T) xs body s s' :
  I s ->
  (forall x s s', In x xs -> I s -> (body x s).2 = ok s' ->
     omap f (body x s).1 = g x /\ I s') ->
  (for_each xs body s).2 = ok s' ->
  omap f (for_each xs body s).1 = concat (map g xs) /\ I s'.
Proof.
  revert s; induction xs as [|x xs IH]; intros s Hs Hbody; simpl.
  - by intros [= <-].
  - specialize (Hbody x s) as Hx.
    destruct (body x s) as [l [e|s1]] eqn:Hb; simpl in *; [discriminate|].
    destruct (Hx s1 (or_introl eq_refl) Hs eq_refl) as [Hl Hs1].
    specialize (IH s1 Hs1 (fun y t t' Hy => Hbody y t t' (or_intror Hy))).
    destruct (for_each xs body s1) as [l' r'] eqn:Hf; simpl in *.
    intros Hr. destruct (IH Hr) as [IHl IHs]. split; [|done].
    by rewrite omap_app, Hl, IHl.
Qed.

(** A loop whose steps all complete completes. *)
Lemma for_each_total (I : S -> Prop) xs body s :
  I s ->
  (forall x s, In x xs -> I s -> exists s', (body x s).2 = ok s' /\ I s') ->
  exists s', (for_each xs body s).2 = ok s' /\ I s'.
Proof.
  revert s; induction xs as [|x xs IH]; intros s Hs Hbody; simpl; [eauto|].
  destruct (Hbody x s (or_introl eq_refl) Hs) as (s1 & Hb & Hs1).
  destruct (body x s) as [l r] eqn:Hbx; simpl in Hb; subst r.
  destruct (IH s1 Hs1 (fun y t Hy => Hbody y t (or_intror Hy)))
    as (s' & Hf & Hs').
  rewrite (bind_inr _ _ l s1) by done. simpl. eauto.
Qed.

End Loops.

Lemma py_range_In (n i : Z) : In i (py_range n) <-> (0 <= i < n)%Z.
Proof.
  unfold py_range. rewrite in_map_iff. split.
  - intros (k & <- & Hk%in_seq). lia.
  - intros Hi. exists (Z.to_nat i). split; [lia|]. apply in_seq. lia.
Qed.

Lemma py_range_length (n : Z) : length (py_range n) = Z.to_nat n.
Proof. unfold py_range. by rewrite length_map, length_seq. Qed.

(** ** The training loop *)

Section Training.
Context {weights grads ostate : Type}.
Context (net_apply : resnet -> weights -> tensor -> result tensor).
Context (autograd : (weights -> result scalar) -> weights -> grads).
Context (update_rule :
  algorithm -> Q -> ostate -> weights -> grads -> weights * ostate).

Local Abbreviation step := (train_step net_apply autograd update_rule).
Local Abbreviation epoch_loop :=
  (train_epoch net_apply autograd update_rule).
Local Abbreviation update :=
  (backward_step net_apply autograd update_rule).
Local Abbreviation state := (train_state weights ostate).

(** The batch a step works on: the [try ... except StopIteration] block. *)
Local Abbreviation fetch dl it :=
  (match next it with
   | inl StopIteration => next (iter dl)
   | r => r
   end).

(** The dictionary a step saves. *)
Local Abbreviation saved_state model optimizer_ :=
  (<["optimizer" := OptimizerState (opt_algorithm optimizer_)
                      (opt_lr optimizer_) (opt_state optimizer_)]>
     (<["model" := ModelState (params model)]> ∅)
   : checkpoint weights ostate).

Lemma backward_step_optimizer data gpu (m : module weights)
    (o : optimizer ostate) :
  opt_algorithm (update data gpu m o).2 = opt_algorithm o
  /\ opt_lr (update data gpu m o).2 = opt_lr o
  /\ arch (update data gpu m o).1 = arch m.
Proof.
  unfold backward_step. by destruct (update_rule _ _ _ _ _).
Qed.

Lemma train_step_fetch_raises gpu dl ck epoch index (s : state) e :
  fetch dl (ts_tr_it s) = inl e ->
  step gpu dl ck epoch index s = ([], inl e).
Proof. unfold train_step. by intros ->. Qed.

Lemma train_step_forward_raises gpu dl ck epoch index (s : state) data it' e :
  fetch dl (ts_tr_it s) = ok (data, it') ->
  forward data (call net_apply (ts_model s)) gpu MSELoss_none = inl e ->
  step gpu dl ck epoch index s = ([], inl e).
Proof.
  intros Hf Hfw. unfold train_step. rewrite Hf. simpl. by rewrite Hfw.
Qed.

Lemma train_step_updates gpu dl ck epoch index (s : state) data it' loss o :
  fetch dl (ts_tr_it s) = ok (data, it') ->
  forward data (call net_apply (ts_model s)) gpu MSELoss_none
  = ok (loss, o) ->
  let mo := update data gpu (ts_model s) (ts_optimizer s) in
  let stepped :=
    OptimizerStep epoch index data (opt_algorithm (ts_optimizer s))
      (opt_lr (ts_optimizer s)) in
  step gpu dl ck epoch index s
  = if (ck =? 0)%Z then ([stepped], inl ZeroDivisionError)
    else (stepped ::
            (if checkpoint_due gpu ck index
             then [TorchSave (checkpoint_path epoch index)
                     (saved_state mo.1 mo.2)]
             else []),
          ok {| ts_model := mo.1; ts_optimizer := mo.2; ts_tr_it := it';
                ts_losses_train := ts_losses_train s ++ [loss] |}).
Proof.
  intros Hf Hfw mo stepped. unfold train_step. rewrite Hf. simpl.
  rewrite Hfw. simpl.
  destruct (backward_step_optimizer data gpu (ts_model s) (ts_optimizer s))
    as (Ha & Hl & _).
  subst mo stepped. rewrite <- Ha, <- Hl.
  destruct (update data gpu (ts_model s) (ts_optimizer s))
    as [model' opt'] eqn:Hb. simpl.
  unfold py_mod, checkpoint_due. destruct (ck =? 0)%Z eqn:Hck; simpl; [done|].
  destruct ((index mod ck =? 0)%Z && negb (index =? 0)%Z && (gpu =? 0)%Z);
    reflexivity.
Qed.

Lemma checkpoint_due_spec gpu ck index :
  checkpoint_due gpu ck index = true
  <-> py_mod index ck = ok 0%Z /\ index <> 0%Z /\ gpu = 0%Z.
Proof.
  unfold checkpoint_due, py_mod.
  destruct (Z.eqb_spec ck 0); simpl.
  - split; [discriminate|]. by intros [[=] _].
  - rewrite !andb_true_iff, negb_true_iff, !Z.eqb_eq, Z.eqb_neq.
    split; [intros [[-> ?] ?]|intros [[= ->] [? ?]]]; auto.
Qed.

(** What one step may log: its own update, by the optimizer it was given,
    and its own checkpoint when one is due. *)
Local Abbreviation step_event a rate gpu ck epoch index ev :=
  ((exists data, ev = OptimizerStep epoch index data a rate)
   \/ (exists (m : module weights) (o : optimizer ostate),
         ev = TorchSave (checkpoint_path epoch index) (saved_state m o)
         /\ opt_algorithm o = a /\ opt_lr o = rate%Q
         /\ checkpoint_due gpu ck index = true)).

Local Abbreviation uses a rate s :=
  (opt_algorithm (ts_optimizer s) = a
   /\ opt_lr (ts_optimizer s) = rate%Q).

Lemma train_step_cases gpu dl ck epoch index (s : state) :
  (exists e, step gpu dl ck epoch index s = ([], inl e))
  \/ (exists data it' loss o,
        fetch dl (ts_tr_it s) = ok (data, it')
        /\ forward data (call net_apply (ts_model s)) gpu MSELoss_none
           = ok (loss, o)).
Proof.
  destruct (fetch dl (ts_tr_it s)) as [e|[data it']] eqn:Hf.
  - left. exists e. by apply train_step_fetch_raises.
  - destruct (forward data (call net_apply (ts_model s)) gpu MSELoss_none)
      as [e|[loss o]] eqn:Hfw.
    + left. exists e. by eapply train_step_forward_raises.
    + right. eauto 6.
Qed.

Lemma train_step_events a lr gpu dl ck epoch index (s : state) :
  uses a lr s ->
  (forall ev, In ev (step gpu dl ck epoch index s).1 ->
     step_event a lr gpu ck epoch index ev)
  /\ (forall s', (step gpu dl ck epoch index s).2 = ok s' -> uses a lr s').
Proof.
  intros [Ha Hl].
  destruct (train_step_cases gpu dl ck epoch index s)
    as [[e ->]|(data & it' & loss & o & Hf & Hfw)]; [by split|].
  rewrite (train_step_updates _ _ _ _ _ _ _ _ _ _ Hf Hfw).
  destruct (backward_step_optimizer data gpu (ts_model s) (ts_optimizer s))
    as (Ha' & Hl' & _).
  destruct (ck =? 0)%Z; simpl.
  - split; [|discriminate]. intros ev [<-|[]]. left. subst. eauto.
  - split.
    + intros ev [<-|Hin]; [left; subst; eauto|].
      destruct (checkpoint_due gpu ck index) eqn:Hd; [|destruct Hin].
      destruct Hin as [<-|[]]. right. do 2 eexists. split; [reflexivity|].
      split; [congruence|]. split; [congruence|done].
    + intros s' [= <-]. simpl. split; congruence.
Qed.

Lemma train_step_completed gpu dl ck epoch index (s s' : state) :
  (step gpu dl ck epoch index s).2 = ok s' ->
  saved_paths (step gpu dl ck epoch index s).1
  = (if checkpoint_due gpu ck index then [checkpoint_path epoch index]
     else [])
  /\ steps_of (step gpu dl ck epoch index s).1 = [(epoch, index)].
Proof.
  destruct (train_step_cases gpu dl ck epoch index s)
    as [[e ->]|(data & it' & loss & o & Hf & Hfw)]; [discriminate|].
  rewrite (train_step_updates _ _ _ _ _ _ _ _ _ _ Hf Hfw).
  destruct (ck =? 0)%Z; simpl; [discriminate|]. intros _.
  by destruct (checkpoint_due gpu ck index).
Qed.

(** *** One epoch *)

Lemma train_epoch_unfold gpu dl ck epoch
    (mo : module weights * optimizer ostate) :
  let loop :=
    for_each (py_range (Z.of_nat (dl_len dl))) (step gpu dl ck epoch)
      {| ts_model := mo.1; ts_optimizer := mo.2; ts_tr_it := iter dl;
         ts_losses_train := [] |} in
  epoch_loop gpu dl ck epoch mo
  = (loop.1,
     match loop.2 with
     | inl e => inl e
     | inr s => ok (ts_model s, ts_optimizer s)
     end).
Proof.
  intros loop. unfold train_epoch. fold loop.
  destruct loop as [l [e|s]]; simpl; [done|]. by rewrite app_nil_r.
Qed.

Lemma train_epoch_events a lr gpu dl ck epoch
    (mo : module weights * optimizer ostate) :
  opt_algorithm mo.2 = a -> opt_lr mo.2 = lr ->
  (forall ev, In ev (epoch_loop gpu dl ck epoch mo).1 ->
     exists index, (0 <= index < Z.of_nat (dl_len dl))%Z
                   /\ step_event a lr gpu ck epoch index ev)
  /\ (forall mo', (epoch_loop gpu dl ck epoch mo).2 = ok mo' ->
        opt_algorithm mo'.2 = a /\ opt_lr mo'.2 = lr).
Proof.
  intros Ha Hl. rewrite train_epoch_unfold. simpl.
  destruct (for_each_events (fun s : state => uses a lr s)
              (fun index ev => step_event a lr gpu ck epoch index ev)
              (py_range (Z.of_nat (dl_len dl))) (step gpu dl ck epoch)
              {| ts_model := mo.1; ts_optimizer := mo.2;
                 ts_tr_it := iter dl; ts_losses_train := [] |}
              (conj Ha Hl)
              (fun x s _ Hs => train_step_events a lr gpu dl ck epoch x s Hs))
    as [Hev Hinv].
  split.
  - intros ev Hin. destruct (Hev ev Hin) as (i & Hi%py_range_In & HP). eauto.
  - intros mo'. destruct (for_each _ _ _).2 as [e|s] eqn:Hr; [discriminate|].
    intros [= <-]. simpl. by apply Hinv.
Qed.

Lemma train_epoch_completed gpu dl ck epoch
    (mo mo' : module weights * optimizer ostate) :
  (epoch_loop gpu dl ck epoch mo).2 = ok mo' ->
  saved_paths (epoch_loop gpu dl ck epoch mo).1
  = concat (map (fun index =>
                   if checkpoint_due gpu ck index
                   then [checkpoint_path epoch index] else [])
              (py_range (Z.of_nat (dl_len dl))))
  /\ steps_of (epoch_loop gpu dl ck epoch mo).1
     = map (fun index => (epoch, index)) (py_range (Z.of_nat (dl_len dl))).
Proof.
  rewrite train_epoch_unfold. simpl.
  destruct (for_each _ _ _).2 as [e|s] eqn:Hr; [discriminate|]. intros _.
  split.
  - eapply (for_each_omap _ (fun _ => True)); [done| |exact Hr].
    intros x t t' _ _ Ht. split; [|done].
    by destruct (train_step_completed _ _ _ _ _ _ _ Ht).
  - unfold steps_of.
    edestruct (for_each_omap
                 (fun ev : event weights ostate =>
                    match ev with
                    | OptimizerStep e i _ _ _ => Some (e, i)
                    | _ => None
                    end)
                 (fun _ : state => True)
                 (fun index : Z => [(epoch, index)])) as [-> _];
      [done| |exact Hr|].
    + intros x t t' _ _ Ht. split; [|done].
      by destruct (train_step_completed _ _ _ _ _ _ _ Ht).
    + generalize (py_range (Z.of_nat (dl_len dl))). intros l.
      induction l as [|i l IH]; simpl; [done|]. by rewrite IH.
Qed.

(** *** Exhaustion of the iterator and other exceptions *)

Lemma py_range_split (n m : Z) :
  (0 <= n < m)%Z -> exists ys, py_range m = py_range n ++ n :: ys.
Proof.
  intros Hnm. unfold py_range.
  replace (Z.to_nat m) with (Z.to_nat n + S (Z.to_nat m - S (Z.to_nat n)))
    by lia.
  rewrite seq_app, map_app. simpl. rewrite Z2Nat.id by lia. eauto.
Qed.

(** A step that finds its iterator exhausted behaves as the same step on a
    fresh iterator. *)
Lemma train_step_restart gpu dl ck epoch index (s : state) :
  next (ts_tr_it s) = inl StopIteration ->
  step gpu dl ck epoch index s
  = step gpu dl ck epoch index
      {| ts_model := ts_model s; ts_optimizer := ts_optimizer s;
         ts_tr_it := iter dl; ts_losses_train := ts_losses_train s |}.
Proof.
  intros Hn. unfold train_step. simpl. rewrite Hn.
  destruct (next (iter dl)) as [[]|[data it']]; reflexivity.
Qed.

(** When the loader yields at least one batch, raises nothing, and no step
    fails, an epoch completes after one step for each index. *)
Lemma train_epoch_total gpu dl ck epoch
    (mo : module weights * optimizer ostate) :
  dl_items dl <> [] ->
  (forall it, In it (dl_items dl) -> exists data, it = inr data) ->
  (forall (model : module weights) data,
     arch model = arch mo.1 ->
     In (inr data) (dl_items dl) ->
     exists r, forward data (call net_apply model) gpu MSELoss_none = ok r) ->
  ck <> 0%Z ->
  exists mo', (epoch_loop gpu dl ck epoch mo).2 = ok mo'.
Proof.
  intros Hne Hitems Hfw Hck. rewrite train_epoch_unfold. simpl.
  destruct (for_each_total
              (fun s : state =>
                 (forall it, In it (ts_tr_it s) -> In it (dl_items dl))
                 /\ arch (ts_model s) = arch mo.1)
              (py_range (Z.of_nat (dl_len dl))) (step gpu dl ck epoch)
              {| ts_model := mo.1; ts_optimizer := mo.2;
                 ts_tr_it := iter dl; ts_losses_train := [] |})
    as (s' & -> & _); [by simpl| |by eauto].
  intros index s _ [Hs Harch].
  assert (exists data it', fetch dl (ts_tr_it s) = ok (data, it')
                           /\ In (inr data) (dl_items dl)
                           /\ forall it, In it it' -> In it (dl_items dl))
    as (data & it' & Hf & Hd & Hit').
  { destruct (ts_tr_it s) as [|[e|data] it'] eqn:Hit; simpl.
    - unfold iter. destruct (dl_items dl) as [|[e|data] it'] eqn:Hdl;
        [done| |].
      + destruct (Hitems (inl e)) as [? [=]]. by left.
      + exists data, it'. simpl. split; [done|]. split; [by left|].
        intros it Hin. by right.
    - destruct (Hitems (inl e)) as [? [=]]. apply Hs. by left.
    - exists data, it'. split; [by destruct it'|]. split.
      + apply Hs. by left.
      + intros it Hin. apply Hs. by right. }
  destruct (Hfw (ts_model s) data Harch Hd) as [[loss o] Hfwd].
  rewrite (train_step_updates _ _ _ _ _ _ _ _ _ _ Hf Hfwd).
  rewrite (proj2 (Z.eqb_neq ck 0) Hck). simpl.
  destruct (backward_step_optimizer data gpu (ts_model s) (ts_optimizer s))
    as (_ & _ & Ha).
  eexists. split; [reflexivity|]. simpl. split; [done|congruence].
Qed.

(** *** The whole run *)

Context (cfg : config).
Context (init_weights : resnet -> weights).
Context (init_ostate : algorithm -> ostate).
Context (files : gmap string (checkpoint weights ostate)).
Context (train_loader : Z -> Z -> dataloader).

Local Abbreviation run gpu args :=
  (train cfg init_weights net_apply autograd init_ostate update_rule files
     train_loader gpu args).

(** The model the loop starts from: the one [build_model] returns, with the
    parameters of a checkpoint when [model_num] names one. *)
Local Abbreviation loaded model_ :=
  (if negb (model_num (cfg_train_params cfg) =? 0)%Z
   then
     let? obj :=
       torch_load files
         (log_dir +:+ "resnet_"
            +:+ pretty (model_num (cfg_train_params cfg)) +:+ ".pth") in
     load_model_state obj
       {| arch := model_; params := init_weights model_ |}
   else ok {| arch := model_; params := init_weights model_ |}).

Lemma train_unfold gpu args :
  run gpu args
  = match build_model cfg with
    | inl e => ([InitProcessGroup (world_size args) gpu], inl e)
    | inr model_ =>
        match loaded model_ with
        | inl e => ([InitProcessGroup (world_size args) gpu], inl e)
        | inr model =>
            let loop :=
              for_each (py_range (max_num_epochs (cfg_train_params cfg)))
                (epoch_loop gpu (train_loader (world_size args) gpu)
                   (checkpoint_every_n_steps (cfg_train_params cfg)))
                (model, optim_Adam init_ostate (1 # 1000)) in
            (InitProcessGroup (world_size args) gpu :: loop.1,
             match loop.2 with
             | inl e => inl e
             | inr _ => ok tt
             end)
        end
    end.
Proof.
  unfold train. simpl.
  destruct (build_model cfg) as [e|model_]; simpl; [done|].
  destruct (loaded model_) as [e|model]; simpl; [done|].
  destruct (for_each _ _ _) as [l [e|mo]]; simpl; [done|].
  by rewrite app_nil_r.
Qed.

(** Every event of a run, the initialisation aside, is the update or the
    checkpoint of one step of one epoch, and the optimizer is the one [train]
    constructed. *)
Lemma train_events gpu args ev :
  In ev (run gpu args).1 ->
  ev = InitProcessGroup (world_size args) gpu
  \/ exists epoch index,
       (0 <= epoch < max_num_epochs (cfg_train_params cfg))%Z
       /\ (0 <= index
           < Z.of_nat (dl_len (train_loader (world_size args) gpu)))%Z
       /\ step_event Adam (1 # 1000)%Q gpu
            (checkpoint_every_n_steps (cfg_train_params cfg)) epoch index ev.
Proof.
  rewrite train_unfold.
  destruct (build_model cfg) as [e|model_]; [intros [<-|[]]; by left|].
  destruct (loaded model_) as [e|model]; [intros [<-|[]]; by left|].
  simpl. intros [<-|Hin]; [by left|]. right.
  pose proof (for_each_events
    (fun mo : module weights * optimizer ostate =>
       opt_algorithm mo.2 = Adam /\ opt_lr mo.2 = (1 # 1000)%Q)
    (fun epoch ev =>
       exists index,
         (0 <= index
          < Z.of_nat (dl_len (train_loader (world_size args) gpu)))%Z
         /\ step_event Adam (1 # 1000)%Q gpu
              (checkpoint_every_n_steps (cfg_train_params cfg)) epoch index ev)
    (py_range (max_num_epochs (cfg_train_params cfg)))
    (epoch_loop gpu (train_loader (world_size args) gpu)
       (checkpoint_every_n_steps (cfg_train_params cfg)))
    (model, optim_Adam init_ostate (1 # 1000))) as Hloop.
  destruct Hloop as [Hev _]; [done| |].
  - intros epoch mo _ [Ha Hl].
    by apply (train_epoch_events Adam (1 # 1000)%Q).
  - destruct (Hev ev Hin) as (epoch & He%py_range_In & index & Hi & HP).
    eauto.
Qed.

Lemma train_completed gpu args :
  (run gpu args).2 = ok tt ->
  let ck := checkpoint_every_n_steps (cfg_train_params cfg) in
  let indices :=
    py_range (Z.of_nat (dl_len (train_loader (world_size args) gpu))) in
  let epochs := py_range (max_num_epochs (cfg_train_params cfg)) in
  saved_paths (run gpu args).1
  = concat (map (fun epoch =>
                   concat (map (fun index =>
                                  if checkpoint_due gpu ck index
                                  then [checkpoint_path epoch index]
                                  else []) indices)) epochs)
  /\ steps_of (run gpu args).1
     = concat (map (fun epoch => map (fun index => (epoch, index)) indices)
                 epochs).
Proof.
  rewrite train_unfold.
  destruct (build_model cfg) as [e|model_]; [discriminate|].
  destruct (loaded model_) as [e|model]; [discriminate|].
  simpl. destruct (for_each _ _ _).2 as [e|mo'] eqn:Hr; [discriminate|].
  intros _. split.
  - eapply (for_each_omap _ (fun _ => True)); [done| |exact Hr].
    intros epoch mo mo1 _ _ Hmo. split; [|done].
    by destruct (train_epoch_completed _ _ _ _ _ _ Hmo).
  - eapply (for_each_omap _ (fun _ => True)); [done| |exact Hr].
    intros epoch mo mo1 _ _ Hmo. split; [|done].
    by destruct (train_epoch_completed _ _ _ _ _ _ Hmo).
Qed.

(** C4: a step whose [next] raises [StopIteration] goes on with a fresh
    iterator over the same loader and takes its batch from it, so that an
    epoch over a loader that yields at least one batch runs exactly
    [len(train_dataloader)] steps, one for each index; any other exception of
    [next], and any exception of the step itself, ends the step, the epoch and
    the run with that exception. *)
Theorem train_restarts_exhausted_iterator (gpu : Z) (args : namespace)
    (epoch : Z) (mo : module weights * optimizer ostate) :
  let dl := train_loader (world_size args) gpu in
  let ck := checkpoint_every_n_steps (cfg_train_params cfg) in
  let start : state :=
    {| ts_model := mo.1; ts_optimizer := mo.2; ts_tr_it := iter dl;
       ts_losses_train := [] |} in
  (* the exception is caught and the batch comes from a fresh iterator *)
  (forall index (s : state),
     next (ts_tr_it s) = inl StopIteration ->
     step gpu dl ck epoch index s
     = step gpu dl ck epoch index
         {| ts_model := ts_model s; ts_optimizer := ts_optimizer s;
            ts_tr_it := iter dl; ts_losses_train := ts_losses_train s |})
  (* exactly [len(train_dataloader)] steps *)
  /\ (dl_items dl <> [] ->
      (forall it, In it (dl_items dl) -> exists data, it = inr data) ->
      (forall (model : module weights) data,
         arch model = arch mo.1 ->
         In (inr data) (dl_items dl) ->
         exists r,
           forward data (call net_apply model) gpu MSELoss_none = ok r) ->
      ck <> 0%Z ->
      exists mo',
        (epoch_loop gpu dl ck epoch mo).2 = ok mo'
        /\ steps_of (epoch_loop gpu dl ck epoch mo).1
           = map (fun index => (epoch, index))
               (py_range (Z.of_nat (dl_len dl)))
        /\ length (steps_of (epoch_loop gpu dl ck epoch mo).1) = dl_len dl)
  (* other exceptions are not caught *)
  /\ (forall index (s : state) e,
        next (ts_tr_it s) = inl e -> e <> StopIteration ->
        step gpu dl ck epoch index s = ([], inl e))
  /\ (forall index (s : state) data it' e,
        fetch dl (ts_tr_it s) = ok (data, it') ->
        forward data (call net_apply (ts_model s)) gpu MSELoss_none = inl e ->
        step gpu dl ck epoch index s = ([], inl e))
  /\ (forall index l1 s1 l2 e,
        (0 <= index < Z.of_nat (dl_len dl))%Z ->
        for_each (py_range index) (step gpu dl ck epoch) start
        = (l1, ok s1) ->
        step gpu dl ck epoch index s1 = (l2, inl e) ->
        epoch_loop gpu dl ck epoch mo = (l1 ++ l2, inl e))
  /\ (forall model_ model l1 mo1 l2 e,
        build_model cfg = ok model_ ->
        loaded model_ = ok model ->
        (0 <= epoch < max_num_epochs (cfg_train_params cfg))%Z ->
        for_each (py_range epoch) (epoch_loop gpu dl ck)
          (model, optim_Adam init_ostate (1 # 1000))
        = (l1, ok mo1) ->
        epoch_loop gpu dl ck epoch mo1 = (l2, inl e) ->
        run gpu args
        = (InitProcessGroup (world_size args) gpu :: l1 ++ l2, inl e)).
Proof.
  intros dl ck start. split; [|split; [|split; [|split; [|split]]]]; cycle 5.
  { intros model_ model l1 mo1 l2 e Hb Hl He Hpre Hep.
    destruct (py_range_split _ _ He) as [ys Hys].
    change (build_model cfg = inr model_) in Hb.
    change (loaded model_ = inr model) in Hl.
    rewrite train_unfold, Hb. cbv beta iota. rewrite Hl. cbv beta iota zeta.
    fold dl ck. rewrite Hys.
    by rewrite (for_each_raise _ _ ys _ _ _ _ _ _ Hpre Hep). }
  - intros index s. apply train_step_restart.
  - intros Hne Hitems Hfw Hck.
    destruct (train_epoch_total gpu dl ck epoch mo Hne Hitems Hfw Hck)
      as [mo' Hmo]. exists mo'. split; [done|].
    destruct (train_epoch_completed _ _ _ _ _ _ Hmo) as [_ ->].
    split; [done|]. by rewrite length_map, py_range_length, Nat2Z.id.
  - intros index s e Hn He. apply train_step_fetch_raises. rewrite Hn.
    by destruct e.
  - intros index s data it' e. apply train_step_forward_raises.
  - intros index l1 s1 l2 e Hn Hpre Hstep.
    destruct (py_range_split _ _ Hn) as [ys Hys].
    rewrite train_epoch_unfold. simpl. fold start. rewrite Hys.
    by rewrite (for_each_raise _ _ ys _ _ _ _ _ _ Hpre Hstep).
Qed.

(** C3: in any run of [train], whether it completes or not, every
    checkpoint written belongs to a step [index] of an epoch with
    [index % checkpoint_every_n_steps == 0], [index != 0] and rank 0, and
    holds exactly two entries: the state of the model under ['model'] and that
    of the optimizer under ['optimizer']. When the run completes, the
    checkpoints written are, in order, those of all the steps of all the
    epochs that satisfy the condition: none is missing and there is no
    other. *)
Theorem train_checkpoints (gpu : Z) (args : namespace) :
  let ck := checkpoint_every_n_steps (cfg_train_params cfg) in
  let len := Z.of_nat (dl_len (train_loader (world_size args) gpu)) in
  let epochs := max_num_epochs (cfg_train_params cfg) in
  (forall path obj,
     In (TorchSave path obj) (run gpu args).1 ->
     exists epoch index,
       (0 <= epoch < epochs)%Z /\ (0 <= index < len)%Z
       /\ path = checkpoint_path epoch index
       /\ py_mod index ck = ok 0%Z /\ index <> 0%Z /\ gpu = 0%Z
       /\ dom obj = {[ "model"; "optimizer" ]}
       /\ (exists w, obj !! "model" = Some (ModelState w))
       /\ (exists a lr s, obj !! "optimizer" = Some (OptimizerState a lr s)))
  /\ ((run gpu args).2 = ok tt ->
      saved_paths (run gpu args).1
      = concat (map (fun epoch =>
                       concat (map (fun index =>
                                      if checkpoint_due gpu ck index
                                      then [checkpoint_path epoch index]
                                      else [])
                                 (py_range len)))
                  (py_range epochs)))
  /\ (forall index,
        checkpoint_due gpu ck index = true
        <-> py_mod index ck = ok 0%Z /\ index <> 0%Z /\ gpu = 0%Z)
  /\ (forall dl epoch index (s s' : state),
        (step gpu dl ck epoch index s).2 = ok s' ->
        checkpoint_due gpu ck index = true ->
        In (TorchSave (checkpoint_path epoch index)
              (saved_state (ts_model s') (ts_optimizer s')))
           (step gpu dl ck epoch index s).1).
Proof.
  intros ck len epochs. split; [|split; [|split]]; cycle 3.
  { intros dl epoch index s s'.
    destruct (train_step_cases gpu dl ck epoch index s)
      as [[e ->]|(data & it' & loss & o & Hf & Hfw)]; [discriminate|].
    rewrite (train_step_updates _ _ _ _ _ _ _ _ _ _ Hf Hfw).
    destruct (ck =? 0)%Z; simpl; [discriminate|].
    intros [= <-] ->. simpl. auto. }
  - intros path obj Hin.
    destruct (train_events gpu args _ Hin)
      as [[=]|(epoch & index & He & Hi & [[data [=]]|Hs])].
    destruct Hs as (m & o & [= -> ->] & _ & _ & Hd).
    apply checkpoint_due_spec in Hd as (Hm & Hz & Hg).
    exists epoch, index.
    split; [lia|]. split; [lia|]. do 4 (split; [done|]). split; [|split].
    + unfold checkpoint. rewrite !dom_insert_L, dom_empty_L. set_solver.
    + exists (params m). unfold checkpoint.
      by rewrite lookup_insert_ne, lookup_insert_eq.
    + do 3 eexists. unfold checkpoint. by rewrite lookup_insert_eq.
  - intros Hr. by destruct (train_completed gpu args Hr).
  - intros index. apply checkpoint_due_spec.
Qed.

(** C9 as the code has it: the optimizer [train] constructs is Adam with
    learning rate [1e-3], and every parameter update of every run is a step of
    that optimizer. *)
Theorem train_optimizer_is_adam (gpu : Z) (args : namespace) :
  opt_algorithm (optim_Adam init_ostate (1 # 1000)) = Adam
  /\ Forall (fun p => p = (Adam, (1 # 1000)%Q))
       (step_optimizers (run gpu args).1).
Proof.
  split; [done|]. apply Forall_forall. intros [a lr] Hin.
  apply list_elem_of_omap in Hin as (ev & Hev%list_elem_of_In & Hp).
  destruct (train_events gpu args _ Hev)
    as [->|(e & i & _ & _ & [[d ->]|(m & o & -> & _)])];
    simpl in Hp; congruence.
Qed.

End Training.

Lemma train_restarts_exhausted_iterator_witness :
  exists mo',
    (train_epoch example_net example_autograd example_update_rule 0
       (example_loader 4 0) 2 0
       ({| arch := example_model; params := 3%Q |},
        optim_Adam example_init_ostate (1 # 1000))).2 = ok mo'
    /\ steps_of
         (train_epoch example_net example_autograd example_update_rule 0
            (example_loader 4 0) 2 0
            ({| arch := example_model; params := 3%Q |},
             optim_Adam example_init_ostate (1 # 1000))).1
       = [(0, 0); (0, 1); (0, 2)]%Z
    /\ length
         (steps_of
            (train_epoch example_net example_autograd example_update_rule 0
               (example_loader 4 0) 2 0
               ({| arch := example_model; params := 3%Q |},
                optim_Adam example_init_ostate (1 # 1000))).1) = 3.
Proof.
  apply (proj1 (proj2
           (train_restarts_exhausted_iterator example_net example_autograd
              example_update_rule (example_cfg (PyBool false) 2 2)
              example_init_weights example_init_ostate example_files
              example_loader 0 example_args 0
              ({| arch := example_model; params := 3%Q |},
               optim_Adam example_init_ostate (1 # 1000))))).
  - discriminate.
  - intros it [<-|[<-|[]]]; eauto.
  - intros [a w] data Ha [[= <-]|[[= <-]|[]]]; simpl in Ha; subst a;
      eexists; reflexivity.
  - discriminate.
Defined.

Lemma train_checkpoints_witness :
  saved_paths example_train.1
  = ["../input/resnet_0_2.pth"; "../input/resnet_1_2.pth"].
Proof.
  etransitivity.
  - apply (proj1 (proj2
             (train_checkpoints example_net example_autograd
                example_update_rule (example_cfg (PyBool false) 2 2)
                example_init_weights example_init_ostate example_files
                example_loader 0 example_args))).
    vm_compute. reflexivity.
  - vm_compute. reflexivity.
Defined.

(** C9 as stated fails: the updates of a run are not steps of SGD. *)
Lemma train_optimizer_counterexample :
  ~ Forall (fun p => p.1 = SGD) (step_optimizers example_train.1).
Proof.
  intros H.
  assert (Hl : step_optimizers example_train.1 !! 0
               = Some (Adam, (1 # 1000)%Q)) by (vm_compute; reflexivity).
  rewrite Forall_forall in H.
  apply list_elem_of_lookup_2, H in Hl. discriminate Hl.
Qed.

Lemma train_optimizer_is_adam_witness :
  Forall (fun p => p = (Adam, (1 # 1000)%Q))
    (step_optimizers example_train.1).
Proof.
  apply (proj2
           (train_optimizer_is_adam example_net example_autograd
              example_update_rule (example_cfg (PyBool false) 2 2)
              example_init_weights example_init_ostate example_files
              example_loader 0 example_args)).
Defined.

(** ** The evaluation loop *)

Lemma forward_outputs_shape data_ model_ device_ criterion_ loss_ outputs :
  forward data_ model_ device_ criterion_ = ok (loss_, outputs) ->
  shape outputs = shape (target_positions data_).
Proof.
  unfold forward. destruct (model_ _) as [e|y]; simpl; [discriminate|].
  unfold reshape. case_decide; simpl; [|discriminate].
  destruct (criterion_ _ _) as [e|l]; simpl; [discriminate|].
  destruct (tmul _ _) as [e|l']; simpl; [discriminate|].
  by intros [= _ <-].
Qed.

Lemma concatenate_1d_inv arrs l :
  concatenate_1d arrs = ok l -> arrs <> [] /\ l = concat arrs.
Proof. destruct arrs; [discriminate|]. by intros [= <-]. Qed.

Lemma concatenate_1d_map {A} (f : A -> list Z) (l : list A) :
  l <> [] -> concatenate_1d (map f l) = ok (concat (map f l)).
Proof. by destruct l. Qed.

Lemma concatenate_inv arrs c :
  concatenate arrs = ok c ->
  arrs <> []
  /\ hd 0 (shape c) = sum_list (map (fun t => hd 0 (shape t)) arrs)
  /\ data c = concat (map data arrs).
Proof.
  unfold concatenate. destruct arrs as [|a arrs]; [discriminate|].
  destruct (shape a) as [|n rest]; [discriminate|].
  destruct (forallb _ _); [|discriminate]. by intros [= <-].
Qed.

Lemma concatenate_same_rest arrs rest :
  arrs <> [] ->
  Forall (fun t => exists n, shape t = n :: rest) arrs ->
  concatenate arrs
  = ok {| shape := sum_list (map (fun t => hd 0 (shape t)) arrs) :: rest;
          data := concat (map data arrs) |}.
Proof.
  intros Hne Hall. unfold concatenate.
  destruct arrs as [|a arrs]; [done|].
  pose proof (Forall_inv Hall) as [n Ha]. rewrite Ha.
  replace (forallb _ (a :: arrs)) with true; [done|].
  symmetry. apply forallb_forall. intros t Ht.
  rewrite Forall_forall in Hall. destruct (Hall t) as [m Hm].
  { by apply list_elem_of_In. }
  apply andb_true_intro. split.
  - apply bool_decide_eq_true_2. by rewrite Hm.
  - apply negb_true_iff, bool_decide_eq_false_2. by rewrite Hm.
Qed.

Section Evaluation.
Context {weights ostate : Type}.
Context (cfg : config).
Context (init_weights : resnet -> weights).
Context (net_apply : resnet -> weights -> tensor -> result tensor).
Context (files : gmap string (checkpoint weights ostate)).
Context (test_loader : Z -> Z -> dataloader).

Local Abbreviation run gpu args :=
  (test cfg init_weights net_apply files test_loader gpu args).

Local Abbreviation model_path :=
  (log_dir +:+ "resnet_"
     +:+ pretty (test_model_num (cfg_test_params cfg)) +:+ ".pth").

(** The loop stores, in iteration order, the outputs, the timestamps and the
    track ids of the batches it works on. *)
Lemma eval_loop_stores gpu (model : module weights) it s s' :
  eval_loop net_apply gpu model it s = ok s' ->
  es_timestamps s' = es_timestamps s ++ map timestamp (evaluated it)
  /\ es_agent_ids s' = es_agent_ids s ++ map track_id (evaluated it)
  /\ exists outs,
       es_future_coords_offsets_pd s' = es_future_coords_offsets_pd s ++ outs
       /\ Forall2 (fun b o =>
                     exists loss_,
                       forward b (call net_apply model) gpu MSELoss_none
                       = ok (loss_, o))
            (evaluated it) outs.
Proof.
  revert s; induction it as [|[e|data] it IH]; intros s; simpl.
  - intros [= <-]. rewrite !app_nil_r. repeat split. exists [].
    by rewrite app_nil_r.
  - intros Hs. assert (s' = s) as ->
      by (destruct e; first [discriminate|by injection Hs]).
    rewrite !app_nil_r. repeat split. exists []. by rewrite app_nil_r.
  - destruct (forward data _ _ _) as [e|[loss_ o]] eqn:Hf; simpl;
      [discriminate|].
    intros Hs. destruct (IH _ Hs) as (Ht & Hi & outs & Ho & Hall).
    simpl in *. rewrite Ht, Hi, Ho, <- !app_assoc. repeat split.
    exists (o :: outs). split; [done|]. constructor; eauto.
Qed.

Lemma eval_loop_total gpu (model : module weights) it s :
  (forall x, In x it -> exists data, x = inr data) ->
  (forall data, In (inr data) it ->
     exists r, forward data (call net_apply model) gpu MSELoss_none = ok r) ->
  exists s', eval_loop net_apply gpu model it s = ok s'.
Proof.
  revert s; induction it as [|[e|data] it IH]; intros s Hit Hfw; simpl.
  - eauto.
  - destruct (Hit (inl e)) as [? [=]]. by left.
  - destruct (Hfw data) as [r ->]; [by left|]. simpl.
    apply IH; intros; [apply Hit|apply Hfw]; by right.
Qed.

Lemma test_unfold gpu args :
  run gpu args
  = let init := InitProcessGroup (world_size args) gpu in
    match build_model cfg with
    | inl e => ([init], inl e)
    | inr model_ =>
    match torch_load files model_path with
    | inl e => ([init], inl e)
    | inr checkpoint_ =>
    match load_model_state checkpoint_
            {| arch := model_; params := init_weights model_ |} with
    | inl e => ([init], inl e)
    | inr model =>
    match eval_loop net_apply gpu model
            (iter (test_loader (world_size args) gpu))
            {| es_future_coords_offsets_pd := []; es_timestamps := [];
               es_agent_ids := [] |} with
    | inl e => ([init], inl e)
    | inr s =>
    match concatenate_1d (es_timestamps s) with
    | inl e => ([init], inl e)
    | inr timestamps =>
    match concatenate_1d (es_agent_ids s) with
    | inl e => ([init], inl e)
    | inr track_ids =>
    match concatenate (es_future_coords_offsets_pd s) with
    | inl e => ([init], inl e)
    | inr coords =>
        let w : io weights ostate unit :=
          write_pred_csv "./pred.csv" timestamps track_ids coords in
        (init :: w.1, w.2)
    end end end end end end end.
Proof.
  unfold test. simpl.
  destruct (build_model cfg) as [e|model_]; simpl; [done|].
  destruct (torch_load files _) as [e|ck]; simpl; [done|].
  destruct (load_model_state ck _) as [e|model]; simpl; [done|].
  destruct (eval_loop _ _ _ _ _) as [e|s]; simpl; [done|].
  destruct (concatenate_1d (es_timestamps s)) as [e|ts]; simpl; [done|].
  destruct (concatenate_1d (es_agent_ids s)) as [e|ids]; simpl; [done|].
  destruct (concatenate _) as [e|coords]; simpl; [done|].
  by destruct (write_pred_csv _ _ _ _).
Qed.

Lemma write_pred_csv_inv path ts ids coords
    (ev : event weights ostate) :
  In ev (write_pred_csv path ts ids coords).1 ->
  ev = WritePredCsv path ts ids coords
  /\ length ts = hd 0 (shape coords)
  /\ length ids = hd 0 (shape coords)
  /\ exists future_len, shape coords = [length ts; future_len; 2].
Proof.
  unfold write_pred_csv.
  destruct (shape coords) as [|n [|t [|c [|? ?]]]]; simpl; try tauto.
  destruct (bool_decide (c = 2)) eqn:Hc; simpl; [|tauto].
  destruct (bool_decide (length ts = n)) eqn:Ht; simpl; [|tauto].
  destruct (bool_decide (length ids = n)) eqn:Hi; simpl; [|tauto].
  apply bool_decide_eq_true_1 in Hc, Ht, Hi. subst.
  intros [<-|[]]. eauto.
Qed.

Lemma length_concat_sum {A} (l : list (list A)) :
  length (concat l) = sum_list (map length l).
Proof.
  induction l as [|x l IH]; simpl; [done|]. by rewrite length_app, IH.
Qed.

Lemma evaluated_all it :
  (forall x, In x it -> exists data, x = inr data) ->
  map inr (evaluated it) = it.
Proof.
  induction it as [|[e|data] it IH]; intros Hit; simpl; [done| |].
  - destruct (Hit (inl e)) as [? [=]]. by left.
  - rewrite IH; [done|]. intros x Hx. apply Hit. by right.
Qed.

(** The outputs of well-formed batches line up with their timestamps and
    track ids. *)
Lemma outputs_line_up gpu (model : module weights) T bs outs :
  Forall (fun b =>
            shape (target_positions b) = [length (timestamp b); T; 2]
            /\ length (track_id b) = length (timestamp b)) bs ->
  Forall2 (fun b o =>
             exists loss_,
               forward b (call net_apply model) gpu MSELoss_none
               = ok (loss_, o)) bs outs ->
  sum_list (map (fun t => hd 0 (shape t)) outs)
  = length (concat (map timestamp bs))
  /\ length (concat (map track_id bs)) = length (concat (map timestamp bs))
  /\ Forall (fun t => exists n, shape t = n :: [T; 2]) outs.
Proof.
  intros Hwf Hall. induction Hall as [|b o bs outs [loss_ Hf] _ IH]; simpl.
  - by repeat split.
  - apply Forall_cons in Hwf as [[Hb Hid] Hwf].
    destruct (IH Hwf) as (IH1 & IH2 & IH3).
    apply forward_outputs_shape in Hf. rewrite Hb in Hf.
    rewrite !length_app, Hf, IH1, IH2, Hid. simpl.
    repeat split. constructor; eauto.
Qed.

(** What a run of [test] logs. *)
Lemma test_events (gpu : Z) (args : namespace) :
  let bs := evaluated (iter (test_loader (world_size args) gpu)) in
  let timestamps := concat (map timestamp bs) in
  let track_ids := concat (map track_id bs) in
  let samples := sum_list (map (fun b => length (timestamp b)) bs) in
  forall ev,
    In ev (run gpu args).1 ->
    ev = InitProcessGroup (world_size args) gpu
    \/ exists coords,
         ev = WritePredCsv "./pred.csv" timestamps track_ids coords
         /\ length timestamps = samples
         /\ length track_ids = samples
         /\ hd 0 (shape coords) = samples
         /\ length (csv_rows ev) = samples
         /\ exists model outs,
              data coords = concat (map data outs)
              /\ Forall2 (fun b o =>
                            exists loss_,
                              forward b (call net_apply model) gpu
                                MSELoss_none = ok (loss_, o)) bs outs.
Proof.
  intros bs timestamps track_ids samples.
  assert (Hsamples : length timestamps = samples).
  { subst timestamps samples. by rewrite length_concat_sum, map_map. }
  rewrite test_unfold. cbv zeta.
  destruct (build_model cfg) as [e|model_]; [intros ev [<-|[]]; by left|].
  destruct (torch_load files _) as [e|ck]; [intros ev [<-|[]]; by left|].
  destruct (load_model_state ck _) as [e|model];
    [intros ev [<-|[]]; by left|].
  destruct (eval_loop _ _ _ _ _) as [e|s] eqn:Hloop;
    [intros ev [<-|[]]; by left|].
  destruct (eval_loop_stores _ _ _ _ _ Hloop)
    as (Ht & Hi & outs & Ho & Hall). simpl in Ht, Hi, Ho.
  destruct (concatenate_1d (es_timestamps s)) as [e|ts] eqn:Hts;
    [intros ev [<-|[]]; by left|].
  destruct (concatenate_1d (es_agent_ids s)) as [e|ids] eqn:Hids;
    [intros ev [<-|[]]; by left|].
  destruct (concatenate _) as [e|coords] eqn:Hc;
    [intros ev [<-|[]]; by left|].
  apply concatenate_1d_inv in Hts as [_ ->], Hids as [_ ->].
  apply concatenate_inv in Hc as (_ & _ & Hd).
  rewrite Ht, Hi. fold bs timestamps track_ids.
  intros ev [<-|Hin]; [by left|]. right.
  apply write_pred_csv_inv in Hin as (-> & Hlt & Hli & fl & Hsh).
  exists coords. split; [done|].
  split; [done|]. split; [congruence|]. split; [congruence|]. split.
  - simpl. rewrite !length_zip, chunks_length. lia.
  - exists model, outs. rewrite Hd, Ho. done.
Qed.

(** C5: whenever [test] writes the predictions, the file is [./pred.csv]
    and its three columns are the concatenations, in iteration order, of the
    timestamps, of the track ids and of the outputs of the batches of the test
    loader; the three have the same length, which is the total number of
    evaluated samples, and the file has one line for each. With at least one
    batch, of aligned timestamps, track ids and targets, on which [forward]
    succeeds, [test] does write the file and returns. *)
Theorem test_writes_one_row_per_sample (gpu : Z) (args : namespace) :
  let bs := evaluated (iter (test_loader (world_size args) gpu)) in
  let timestamps := concat (map timestamp bs) in
  let track_ids := concat (map track_id bs) in
  let samples := sum_list (map (fun b => length (timestamp b)) bs) in
  (forall ev,
     In ev (run gpu args).1 ->
     ev = InitProcessGroup (world_size args) gpu
     \/ exists coords,
          ev = WritePredCsv "./pred.csv" timestamps track_ids coords
          /\ length timestamps = samples
          /\ length track_ids = samples
          /\ hd 0 (shape coords) = samples
          /\ length (csv_rows ev) = samples
          /\ exists model outs,
               data coords = concat (map data outs)
               /\ Forall2 (fun b o =>
                             exists loss_,
                               forward b (call net_apply model) gpu
                                 MSELoss_none = ok (loss_, o)) bs outs)
  /\ (forall model_ checkpoint_ model T,
        build_model cfg = ok model_ ->
        torch_load files model_path = ok checkpoint_ ->
        load_model_state checkpoint_
          {| arch := model_; params := init_weights model_ |} = ok model ->
        dl_items (test_loader (world_size args) gpu) <> [] ->
        (forall x, In x (dl_items (test_loader (world_size args) gpu)) ->
           exists b, x = inr b
             /\ shape (target_positions b) = [length (timestamp b); T; 2]
             /\ length (track_id b) = length (timestamp b)
             /\ exists r,
                  forward b (call net_apply model) gpu MSELoss_none = ok r) ->
        exists coords,
          run gpu args
          = ([InitProcessGroup (world_size args) gpu;
              WritePredCsv "./pred.csv" timestamps track_ids coords], ok tt)
          /\ shape coords = [samples; T; 2]).
Proof.
  intros bs timestamps track_ids samples.
  assert (Hsamples : length timestamps = samples).
  { subst timestamps samples. by rewrite length_concat_sum, map_map. }
  split.
  - apply test_events.
  - intros model_ ck model T Hb Hl Hm Hne Hitems.
    change (build_model cfg = inr model_) in Hb.
    change (torch_load files model_path = inr ck) in Hl.
    change (load_model_state ck
              {| arch := model_; params := init_weights model_ |}
            = inr model) in Hm.
    rewrite test_unfold. cbv zeta. rewrite Hb, Hl, Hm.
    set (it := iter (test_loader (world_size args) gpu)) in *.
    assert (Hall : map inr bs = it).
    { apply evaluated_all. intros x Hx.
      destruct (Hitems x Hx) as (b & -> & _). eauto. }
    destruct (eval_loop_total gpu model it
                {| es_future_coords_offsets_pd := []; es_timestamps := [];
                   es_agent_ids := [] |}) as [s Hloop].
    { intros x Hx. destruct (Hitems x Hx) as (b & -> & _). eauto. }
    { intros b Hx. destruct (Hitems _ Hx) as (b' & [= <-] & _ & _ & Hf).
      done. }
    change (eval_loop net_apply gpu model it
              {| es_future_coords_offsets_pd := []; es_timestamps := [];
                 es_agent_ids := [] |} = inr s) in Hloop.
    rewrite Hloop.
    destruct (eval_loop_stores _ _ _ _ _ Hloop)
      as (Ht & Hi & outs & Ho & Hfw). simpl in Ht, Hi, Ho.
    fold bs in Ht, Hi, Hfw.
    assert (Hbs : bs <> []).
    { intros Hnil. rewrite Hnil in Hall. simpl in Hall. by subst it. }
    assert (Hwf : Forall (fun b =>
              shape (target_positions b) = [length (timestamp b); T; 2]
              /\ length (track_id b) = length (timestamp b)) bs).
    { apply Forall_forall. intros b Hin.
      destruct (Hitems (inr b)) as (b' & [= <-] & ? & ? & _); [|done].
      change (In (inr b) it). rewrite <- Hall. apply in_map.
      by apply list_elem_of_In. }
    destruct (outputs_line_up gpu model T bs outs Hwf Hfw)
      as (Hsum & Hlen & Hsh).
    rewrite Ht, Hi, Ho.
    rewrite !concatenate_1d_map by done. unfold ok at 1 2.
    rewrite (concatenate_same_rest outs [T; 2]); [|by destruct Hfw|done].
    fold timestamps track_ids. fold timestamps track_ids in Hsum, Hlen.
    unfold write_pred_csv. simpl. rewrite Hsum.
    rewrite (bool_decide_eq_true_2 (length (concat (map timestamp bs))
                                    = length timestamps)) by reflexivity.
    rewrite (bool_decide_eq_true_2 (length (concat (map track_id bs))
                                    = length timestamps)) by exact Hlen.
    simpl.
    eexists. split; [reflexivity|]. simpl. by rewrite Hsamples.
Qed.

End Evaluation.

Lemma test_writes_one_row_per_sample_witness :
  exists coords,
    example_test
    = ([InitProcessGroup 4 0;
        WritePredCsv "./pred.csv" [1000; 1000]%Z [7; 7]%Z coords], ok tt)
    /\ shape coords = [2; 2; 2].
Proof.
  apply (proj2
           (test_writes_one_row_per_sample (example_cfg (PyBool true) 2 2)
              example_init_weights example_net example_files example_loader
              0 {| flags := default_args; world_size := 4 |})
           example_model
           {[ "model" := ModelState 5%Q ]}
           {| arch := example_model; params := 5%Q |} 2).
  - reflexivity.
  - vm_compute. reflexivity.
  - vm_compute. reflexivity.
  - discriminate.
  - intros x [<-|[<-|[]]]; (eexists; split; [reflexivity|]);
      (do 2 (split; [reflexivity|])); eexists; reflexivity.
Defined.

(** ** The launcher *)

Section Launcher.
Context {weights grads ostate : Type}.
Context (init_weights : resnet -> weights).
Context (net_apply : resnet -> weights -> tensor -> result tensor).
Context (autograd : (weights -> result scalar) -> weights -> grads).
Context (init_ostate : algorithm -> ostate).
Context (update_rule :
  algorithm -> Q -> ostate -> weights -> grads -> weights * ostate).
Context (files : gmap string (checkpoint weights ostate)).
Context (train_loader test_loader : Z -> Z -> dataloader).

Local Abbreviation train_on cfg :=
  (train cfg init_weights net_apply autograd init_ostate update_rule files
     train_loader).
Local Abbreviation test_on cfg :=
  (test cfg init_weights net_apply files test_loader).
Local Abbreviation spawn cfg :=
  (mp_spawn cfg init_weights net_apply autograd init_ostate update_rule files
     train_loader test_loader).

(** A process reads nothing of its namespace but [world_size]. *)
Lemma train_reads_world_size cfg gpu (a a' : namespace) :
  world_size a = world_size a' -> train_on cfg gpu a = train_on cfg gpu a'.
Proof. intros H. unfold train. by rewrite H. Qed.

Lemma test_reads_world_size cfg gpu (a a' : namespace) :
  world_size a = world_size a' -> test_on cfg gpu a = test_on cfg gpu a'.
Proof. intros H. unfold test. by rewrite H. Qed.

(** [train] does not read [load_the_state]. *)
Lemma train_ignores_load_the_state cfg v gpu args :
  train_on (set_load_the_state v cfg) gpu args = train_on cfg gpu args.
Proof. reflexivity. Qed.

Lemma mp_spawn_main cfg parsed :
  spawn cfg (main cfg parsed)
  = map (fun i =>
           let args :=
             {| flags := parsed;
                world_size := (gpus parsed * nodes parsed)%Z |} in
           if truthy (load_the_state (cfg_train_params cfg))
           then test_on cfg i args
           else train_on cfg i args)
      (py_range (gpus parsed)).
Proof.
  unfold mp_spawn, main.
  by destruct (truthy (load_the_state (cfg_train_params cfg))).
Qed.

(** C6: [main] spawns [train] exactly when [load_the_state] is false and
    [test] exactly when it is true: each spawned process runs [test] in the
    second case and [train] in the first. The flag does not make [train]
    resume from a saved state: [train] does not read it (what it loads is
    decided by [model_num]), and a process running [test] updates no parameter
    and saves no checkpoint. *)
Theorem main_mode_switch (cfg : config) (parsed : parsed_args) :
  let flag := truthy (load_the_state (cfg_train_params cfg)) in
  (spawn_fn (main cfg parsed) = EntryTrain <-> flag = false)
  /\ (spawn_fn (main cfg parsed) = EntryTest <-> flag = true)
  /\ spawn cfg (main cfg parsed)
     = map (fun i =>
              if flag then test_on cfg i (spawn_args (main cfg parsed))
              else train_on cfg i (spawn_args (main cfg parsed)))
         (py_range (gpus parsed))
  /\ (forall v gpu args,
        train_on (set_load_the_state v cfg) gpu args = train_on cfg gpu args)
  /\ (forall gpu args ev,
        In ev (test_on cfg gpu args).1 ->
        (forall epoch index data a lr,
           ev <> OptimizerStep epoch index data a lr)
        /\ (forall path obj, ev <> TorchSave path obj)).
Proof.
  intros flag. split; [|split; [|split; [|split]]].
  - unfold main. fold flag. destruct flag; simpl; split; congruence.
  - unfold main. fold flag. destruct flag; simpl; split; congruence.
  - rewrite mp_spawn_main. fold flag. unfold main. fold flag.
    by destruct flag.
  - intros v gpu args. apply train_ignores_load_the_state.
  - intros gpu args ev Hin.
    destruct (test_events cfg init_weights net_apply files test_loader
                gpu args ev Hin) as [->|(coords & -> & _)]; by split.
Qed.

(** C10 as the code has it: [world_size] is [gpus * nodes]; the number of
    nodes serves that product only; the number of GPUs is also the number of
    processes [main] spawns; the node rank is parsed and never read. *)
Theorem main_flags (cfg : config) (parsed : parsed_args) :
  world_size (spawn_args (main cfg parsed)) = (gpus parsed * nodes parsed)%Z
  /\ spawn_nprocs (main cfg parsed) = gpus parsed
  /\ (forall v,
        spawn_fn (main cfg (set_nr v parsed)) = spawn_fn (main cfg parsed)
        /\ spawn_nprocs (main cfg (set_nr v parsed))
           = spawn_nprocs (main cfg parsed)
        /\ world_size (spawn_args (main cfg (set_nr v parsed)))
           = world_size (spawn_args (main cfg parsed))
        /\ spawn cfg (main cfg (set_nr v parsed))
           = spawn cfg (main cfg parsed))
  /\ (forall parsed',
        gpus parsed' = gpus parsed ->
        (gpus parsed' * nodes parsed')%Z = (gpus parsed * nodes parsed)%Z ->
        spawn cfg (main cfg parsed') = spawn cfg (main cfg parsed)).
Proof.
  assert (Hspawn : forall p p',
    gpus p' = gpus p ->
    (gpus p' * nodes p')%Z = (gpus p * nodes p)%Z ->
    spawn cfg (main cfg p') = spawn cfg (main cfg p)).
  { intros p p' Hg Hw. rewrite !mp_spawn_main, Hg. rewrite Hg in Hw.
    apply map_ext. intros i.
    cbv zeta. destruct (truthy _).
    - by apply test_reads_world_size.
    - by apply train_reads_world_size. }
  split; [|split; [|split]].
  - unfold main. by destruct (negb _).
  - unfold main. by destruct (negb _).
  - intros v. split; [|split; [|split]].
    + unfold main. by destruct (negb _).
    + unfold main. by destruct (negb _).
    + unfold main. by destruct (negb _).
    + by apply Hspawn.
  - intros parsed'. apply Hspawn.
Qed.

End Launcher.

(** C10 as stated fails: the node rank does not enter [world_size], and the
    number of GPUs decides more than [world_size]: two command lines with the
    same [world_size] spawn different numbers of processes. *)
Lemma main_flags_counterexample :
  let cfg := example_cfg (PyBool false) 2 2 in
  ~ (exists v,
       world_size (spawn_args (main cfg {| nodes := 1; gpus := 4; nr := v |}))
       <> world_size
            (spawn_args (main cfg {| nodes := 1; gpus := 4; nr := 0 |})))
  /\ world_size (spawn_args (main cfg {| nodes := 2; gpus := 1; nr := 0 |}))
     = world_size (spawn_args (main cfg {| nodes := 1; gpus := 2; nr := 0 |}))
  /\ spawn_nprocs (main cfg {| nodes := 2; gpus := 1; nr := 0 |})
     <> spawn_nprocs (main cfg {| nodes := 1; gpus := 2; nr := 0 |}).
Proof.
  simpl. split; [|split]; [|reflexivity|discriminate].
  intros [v Hv]. by apply Hv.
Qed.

Lemma main_flags_witness :
  mp_spawn (example_cfg (PyBool false) 2 2) example_init_weights example_net
    example_autograd example_init_ostate example_update_rule example_files
    example_loader example_loader
    (main (example_cfg (PyBool false) 2 2)
       {| nodes := 1; gpus := 2; nr := 5 |})
  = mp_spawn (example_cfg (PyBool false) 2 2) example_init_weights
      example_net example_autograd example_init_ostate example_update_rule
      example_files example_loader example_loader
      (main (example_cfg (PyBool false) 2 2)
         {| nodes := 1; gpus := 2; nr := 0 |}).
Proof.
  apply (proj2 (proj2 (proj2
           (main_flags example_init_weights example_net example_autograd
              example_init_ostate example_update_rule example_files
              example_loader example_loader
              (example_cfg (PyBool false) 2 2)
              {| nodes := 1; gpus := 2; nr := 0 |})))
           {| nodes := 1; gpus := 2; nr := 5 |});
    reflexivity.
Defined.

Lemma main_mode_switch_witness :
  spawn_fn (main (example_cfg (PyBool true) 2 2) default_args) = EntryTest
  /\ spawn_fn (main (example_cfg (PyInt 0) 2 2) default_args) = EntryTrain.
Proof.
  split.
  - apply (proj1 (proj2
             (main_mode_switch example_init_weights example_net
                example_autograd example_init_ostate example_update_rule
                example_files example_loader example_loader
                (example_cfg (PyBool true) 2 2) default_args))).
    reflexivity.
  - apply (proj1
             (main_mode_switch example_init_weights example_net
                example_autograd example_init_ostate example_update_rule
                example_files example_loader example_loader
                (example_cfg (PyInt 0) 2 2) default_args)).
    reflexivity.
Defined.

(** * Further properties *)

(** ** The loss *)

Lemma step_of_element (n k i : nat) : i < n * k -> i / k < n.
Proof.
  intros Hi. apply Nat.Div0.div_lt_upper_bound. lia.
Qed.

(** *** Signs *)

Lemma binary_round_aux_sign m e l :
  not_negative (binary_round_aux f32_prec f32_emax false m e l) = true.
Proof.
  unfold binary_round_aux.
  destruct (shr_fexp _ _ m e l) as [mrs' e'].
  destruct (shr_fexp _ _ _ e' loc_Exact) as [mrs'' e''].
  destruct (shr_m mrs''); [done| |done].
  by destruct (Z.leb _ _).
Qed.

Lemma binary_normalize_sign z e :
  (0 <= z)%Z ->
  not_negative (binary_normalize f32_prec f32_emax z e false) = true.
Proof.
  intros Hz. destruct z as [|p|p]; [done| |lia].
  unfold binary_normalize, binary_round.
  destruct (shl_align _ _ _) as [mz ez]. apply binary_round_aux_sign.
Qed.

Lemma f32_of_Z_sign z : (0 <= z)%Z -> not_negative (f32_of_Z z) = true.
Proof. apply binary_normalize_sign. Qed.

Lemma f32_mul_sign x y :
  not_negative x = true -> not_negative y = true ->
  not_negative (f32_mul x y) = true.
Proof.
  destruct x as [[]|[]| |[] mx ex]; try done;
    destruct y as [[]|[]| |[] my ey]; try done.
  intros _ _. apply binary_round_aux_sign.
Qed.

Lemma f32_mul_self_sign x : not_negative (f32_mul x x) = true.
Proof.
  destruct x as [[]|[]| |[] m e]; try done; apply binary_round_aux_sign.
Qed.

Lemma sq_err_sign x y : not_negative (sq_err x y) = true.
Proof. apply f32_mul_self_sign. Qed.

Lemma f32_add_sign x y :
  not_negative x = true -> not_negative y = true ->
  not_negative (f32_add x y) = true.
Proof.
  destruct x as [[]|[]| |[] mx ex]; try done;
    destruct y as [[]|[]| |[] my ey]; try done.
  intros _ _. unfold f32_add, SFadd. apply binary_normalize_sign.
  unfold cond_Zopp. lia.
Qed.

Lemma f32_div_sign x y :
  not_negative x = true -> not_negative y = true ->
  not_negative (f32_div x y) = true.
Proof.
  destruct x as [[]|[]| |[] mx ex]; try done;
    destruct y as [[]|[]| |[] my ey]; try done.
  intros _ _. unfold f32_div, SFdiv.
  destruct (SFdiv_core_binary _ _ _ _ _ _) as [[mz ez] lz].
  apply binary_round_aux_sign.
Qed.

Lemma fold_left_add_sign l acc :
  not_negative acc = true ->
  Forall (fun x => not_negative x = true) l ->
  not_negative (fold_left f32_add l acc) = true.
Proof.
  intros Hacc Hl. revert acc Hacc.
  induction Hl as [|x l Hx Hl IH]; intros acc Hacc; [done|].
  simpl. apply IH. by apply f32_add_sign.
Qed.

Lemma masked_sq_err_nan_output k o t a i :
  nth i o f32_zero = S754_nan -> masked_sq_err k o t a i = S754_nan.
Proof.
  intros Ho. unfold masked_sq_err, sq_err. rewrite Ho. done.
Qed.

(** X1: the loss does not depend on what the network predicts for the steps
    that are not available, as long as the squared errors there are finite:
    two networks whose outputs agree on every element of every step with a
    non-zero availability get the same loss, up to the sign of a zero. *)
Theorem forward_ignores_unavailable_outputs (data_ : batch)
    (model_ model_' : tensor -> result tensor) (device_ : Z)
    (y y' : tensor) (s : list nat) (k : nat) :
  shape (target_positions data_) = s ++ [k] ->
  shape (target_availabilities data_) = s ->
  tensor_wf (target_positions data_) ->
  tensor_wf (target_availabilities data_) ->
  model_ (image data_) = ok y -> model_' (image data_) = ok y' ->
  tensor_wf y -> tensor_wf y' ->
  numel (shape y) = numel s * k -> numel (shape y') = numel s * k ->
  let a := data (target_availabilities data_) in
  let t := data (target_positions data_) in
  (forall i, i < numel s * k ->
     is_zero (nth (i / k) a f32_zero) = false ->
     nth i (data y) f32_zero = nth i (data y') f32_zero) ->
  (forall i, i < numel s * k ->
     is_zero (nth (i / k) a f32_zero) = true ->
     is_finite (sq_err (nth i (data y) f32_zero) (nth i t f32_zero)) = true
     /\ is_finite (sq_err (nth i (data y') f32_zero) (nth i t f32_zero))
        = true) ->
  exists l l' o o',
    forward data_ model_ device_ MSELoss_none = ok (l, o)
    /\ forward data_ model_' device_ MSELoss_none = ok (l', o')
    /\ f32_same l l'.
Proof.
  intros Ht Ha Wt Wa Hy Hy' Wy Wy' Hn Hn' a t Hagree Hfin.
  rewrite (forward_spec data_ model_ device_ y s k) by done.
  rewrite (forward_spec data_ model_' device_ y' s k) by done.
  do 4 eexists. split; [reflexivity|]. split; [reflexivity|].
  rewrite !mean_map_seq. apply f32_div_same. unfold f32_sum.
  fold a t.
  set (av i := negb (is_zero (nth (i / k) a f32_zero))).
  eapply f32_same_trans.
  { apply (fold_left_add_filter _ av); [apply f32_same_refl|].
    intros i Hi%in_seq Hav. apply negb_false_iff in Hav.
    apply f32_mul_zero_finite; [done|]. apply Hfin; [lia|done]. }
  apply f32_same_sym. eapply f32_same_trans.
  { apply (fold_left_add_filter _ av); [apply f32_same_refl|].
    intros i Hi%in_seq Hav. apply negb_false_iff in Hav.
    apply f32_mul_zero_finite; [done|]. apply Hfin; [lia|done]. }
  left. f_equal. apply map_ext_in.
  intros i [Hav Hi%list_elem_of_In%in_seq]%list_elem_of_In%list_elem_of_filter.
  apply negb_true_iff in Hav. unfold masked_sq_err.
  rewrite (Hagree i) by (done || lia). done.
Qed.

Lemma forward_ignores_unavailable_outputs_witness :
  exists l l' o o',
    forward example_batch
      (fun _ => ok {| shape := [1; 4]; data := f32s [3; 3; 3; 3]%Z |}) 0
      MSELoss_none = ok (l, o)
    /\ forward example_batch
         (fun _ => ok {| shape := [1; 4]; data := f32s [3; 3; 9; 9]%Z |}) 0
         MSELoss_none = ok (l', o')
    /\ f32_same l l'.
Proof.
  apply (forward_ignores_unavailable_outputs example_batch _ _ 0
           {| shape := [1; 4]; data := f32s [3; 3; 3; 3]%Z |}
           {| shape := [1; 4]; data := f32s [3; 3; 9; 9]%Z |} [1; 2] 2);
    try reflexivity.
  - intros i Hi. destruct i as [|[|[|[|i]]]];
      [vm_compute; done..|cbn in Hi; lia].
  - intros i Hi. destruct i as [|[|[|[|i]]]];
      [vm_compute; done..|cbn in Hi; lia].
Defined.

(** X2: with availabilities that are not negative the loss is never
    negative: it is NaN or a number whose sign bit is clear. The loss of a
    batch without any element is NaN. *)
Theorem forward_loss_nonneg (data_ : batch)
    (model_ : tensor -> result tensor) (device_ : Z) (y : tensor)
    (s : list nat) (k : nat) :
  shape (target_positions data_) = s ++ [k] ->
  shape (target_availabilities data_) = s ->
  tensor_wf (target_positions data_) ->
  tensor_wf (target_availabilities data_) ->
  model_ (image data_) = ok y -> tensor_wf y ->
  numel (shape y) = numel s * k ->
  (forall j, j < numel s ->
     not_negative (nth j (data (target_availabilities data_)) f32_zero)
     = true) ->
  exists l o,
    forward data_ model_ device_ MSELoss_none = ok (l, o)
    /\ not_negative l = true
    /\ (numel s * k = 0 -> l = S754_nan).
Proof.
  intros Ht Ha Wt Wa Hy Wy Hn Hpos.
  rewrite (forward_spec data_ model_ device_ y s k) by done.
  do 2 eexists. split; [reflexivity|]. rewrite mean_map_seq. split.
  - apply f32_div_sign; [|apply f32_of_Z_sign; lia].
    apply fold_left_add_sign; [done|].
    apply Forall_forall. intros x Hx%list_elem_of_In%in_map_iff.
    destruct Hx as (i & <- & Hi%in_seq). apply f32_mul_sign.
    + apply sq_err_sign.
    + apply Hpos. apply step_of_element. lia.
  - intros ->. reflexivity.
Qed.

Lemma forward_loss_nonneg_witness :
  exists l o,
    forward example_batch (example_net example_model 3%Q) 0 MSELoss_none
    = ok (l, o)
    /\ not_negative l = true
    /\ (numel [1; 2] * 2 = 0 -> l = S754_nan).
Proof.
  apply (forward_loss_nonneg example_batch _ 0
           {| shape := [1; 4]; data := f32s [3; 3; 3; 3]%Z |} [1; 2] 2);
    try (vm_compute; reflexivity).
  intros j Hj. destruct j as [|[|j]]; [vm_compute; done..|cbn in Hj; lia].
Defined.

(** X21: one NaN among the outputs of the network, at a step that is
    available or not, makes the loss NaN. *)
Theorem forward_nan_output_nan_loss (data_ : batch)
    (model_ : tensor -> result tensor) (device_ : Z) (y : tensor)
    (s : list nat) (k i : nat) :
  shape (target_positions data_) = s ++ [k] ->
  shape (target_availabilities data_) = s ->
  tensor_wf (target_positions data_) ->
  tensor_wf (target_availabilities data_) ->
  model_ (image data_) = ok y -> tensor_wf y ->
  numel (shape y) = numel s * k ->
  i < numel s * k ->
  nth i (data y) f32_zero = S754_nan ->
  forward data_ model_ device_ MSELoss_none
  = ok (S754_nan,
        {| shape := shape (target_positions data_); data := data y |}).
Proof.
  intros Ht Ha Wt Wa Hy Wy Hn Hi Hnan.
  rewrite (forward_spec data_ model_ device_ y s k) by done.
  rewrite Ht, mean_nan; [done|].
  rewrite <- (masked_sq_err_nan_output k (data y)
                (data (target_positions data_))
                (data (target_availabilities data_)) i Hnan).
  apply in_map, in_seq. lia.
Qed.

Lemma forward_nan_output_nan_loss_witness :
  forward example_batch
    (fun _ =>
       ok {| shape := [1; 4];
             data := [f32_of_Z 1; S754_nan; f32_of_Z 3; f32_of_Z 4] |}) 0
    MSELoss_none
  = ok (S754_nan,
        {| shape := [1; 2; 2];
           data := [f32_of_Z 1; S754_nan; f32_of_Z 3; f32_of_Z 4] |}).
Proof.
  apply (forward_nan_output_nan_loss example_batch _ 0
           {| shape := [1; 4];
              data := [f32_of_Z 1; S754_nan; f32_of_Z 3; f32_of_Z 4] |}
           [1; 2] 2 1); try reflexivity.
  simpl. lia.
Defined.

(** X4: on a batch of well-formed targets and availabilities, and with a
    network that returns well-formed tensors, [forward] returns exactly when
    the network returns an output with as many elements as the targets; the
    exception of the network is the exception of [forward], and an output of
    another size is refused whatever the criterion. *)
Theorem forward_returns_iff (data_ : batch)
    (model_ : tensor -> result tensor) (device_ : Z)
    (s : list nat) (k : nat) :
  shape (target_positions data_) = s ++ [k] ->
  shape (target_availabilities data_) = s ->
  tensor_wf (target_positions data_) ->
  tensor_wf (target_availabilities data_) ->
  (forall x y, model_ x = ok y -> tensor_wf y) ->
  ((exists r, forward data_ model_ device_ MSELoss_none = ok r)
   <-> exists y, model_ (image data_) = ok y
                 /\ numel (shape y) = numel s * k)
  /\ (forall criterion_ e,
        model_ (image data_) = inl e ->
        forward data_ model_ device_ criterion_ = inl e)
  /\ (forall criterion_ y,
        model_ (image data_) = ok y ->
        numel (shape y) <> numel s * k ->
        exists msg,
          forward data_ model_ device_ criterion_
          = inl (RuntimeError msg)).
Proof.
  intros Ht Ha Wt Wa Wm.
  assert (Hk : numel (s ++ [k]) = numel s * k).
  { rewrite numel_app. simpl. lia. }
  split; [|split].
  - split.
    + intros [r Hr]. unfold forward in Hr.
      destruct (model_ (image data_)) as [e|y] eqn:Hy; [discriminate|].
      simpl in Hr. unfold reshape in Hr. rewrite Ht, Hk in Hr.
      case_decide; [|discriminate]. eauto.
    + intros (y & Hy & Hn).
      rewrite (forward_spec data_ model_ device_ y s k); eauto.
  - intros criterion_ e He. unfold forward. by rewrite He.
  - intros criterion_ y Hy Hn. unfold forward. rewrite Hy. simpl.
    unfold reshape. rewrite Ht, Hk. rewrite decide_False by congruence.
    eauto.
Qed.

Lemma forward_returns_iff_witness :
  exists msg,
    forward example_batch
      (fun _ => ok {| shape := [1; 6]; data := replicate 6 f32_zero |}) 0
      MSELoss_none = inl (RuntimeError msg).
Proof.
  apply (proj2 (proj2
           (forward_returns_iff example_batch
              (fun _ =>
                 ok {| shape := [1; 6]; data := replicate 6 f32_zero |}) 0
              [1; 2] 2 eq_refl eq_refl eq_refl eq_refl
              (fun x y H =>
                 match H in _ = r
                       return match r with
                              | inr t => tensor_wf t
                              | inl _ => True
                              end with
                 | eq_refl => eq_refl
                 end)))
           MSELoss_none {| shape := [1; 6]; data := replicate 6 f32_zero |}
           eq_refl).
  simpl. lia.
Defined.

(** ** More on the training loop *)

Lemma succ_mod (j k : nat) :
  0 < k ->
  S j mod k = if decide (j mod k + 1 < k) then j mod k + 1 else 0.
Proof.
  intros Hk. pose proof (Nat.div_mod_eq j k) as Hj.
  pose proof (Nat.mod_upper_bound j k) as Hb.
  case_decide.
  - symmetry. apply (Nat.mod_unique _ _ (j / k)); lia.
  - symmetry. apply (Nat.mod_unique _ _ (S (j / k))); lia.
Qed.

Lemma saved_paths_nil {weights ostate} (log : list (event weights ostate)) :
  (forall p o, ~ In (TorchSave p o) log) -> saved_paths log = [].
Proof.
  induction log as [|ev log IH]; intros H; [done|].
  unfold saved_paths in *. simpl.
  destruct ev; try (apply IH; intros p o Hin; apply (H p o); by right).
  destruct (H path obj). by left.
Qed.

Lemma py_range_nat (n : nat) :
  py_range (Z.of_nat n) = map Z.of_nat (seq 0 n).
Proof. unfold py_range. by rewrite Nat2Z.id. Qed.

Section TrainingMore.
Context {weights grads ostate : Type}.
Context (net_apply : resnet -> weights -> tensor -> result tensor).
Context (autograd : (weights -> result scalar) -> weights -> grads).
Context (update_rule :
  algorithm -> Q -> ostate -> weights -> grads -> weights * ostate).

Local Abbreviation step := (train_step net_apply autograd update_rule).
Local Abbreviation epoch_loop :=
  (train_epoch net_apply autograd update_rule).
Local Abbreviation state := (train_state weights ostate).
Local Abbreviation fetch dl it :=
  (match next it with
   | inl StopIteration => next (iter dl)
   | r => r
   end).

(** A step that completes has worked on the batch it fetched and keeps the
    rest of the iterator. *)
Lemma train_step_batch gpu dl ck epoch index (s s' : state) :
  (step gpu dl ck epoch index s).2 = ok s' ->
  exists data,
    fetch dl (ts_tr_it s) = ok (data, ts_tr_it s')
    /\ batches_of (step gpu dl ck epoch index s).1 = [data].
Proof.
  destruct (train_step_cases net_apply autograd update_rule gpu dl ck epoch
              index s) as [[e ->]|(data & it' & loss & o & Hf & Hfw)];
    [discriminate|].
  rewrite (train_step_updates _ _ _ _ _ _ _ _ _ _ _ _ _ Hf Hfw).
  destruct (ck =? 0)%Z; simpl; [discriminate|]. intros [= <-]. simpl.
  exists data. split; [done|]. by destruct (checkpoint_due gpu ck index).
Qed.

(** The position in the list of batches from which the iterator goes on
    before step [a]. *)
Local Abbreviation position k a :=
  (match a with
   | O => 0
   | S j => j mod k + 1
   end).

Lemma fetch_position dl bs a data it' :
  dl_items dl = map inr bs ->
  fetch dl (map inr (drop (position (length bs) a) bs)) = ok (data, it') ->
  bs !! (a mod length bs) = Some data
  /\ it' = map inr (drop (position (length bs) (S a)) bs).
Proof.
  intros Hdl. unfold iter. rewrite Hdl.
  destruct bs as [|b0 bs0] eqn:Hbs.
  { rewrite drop_nil. simpl. discriminate. }
  rewrite <- Hbs in *. set (k := length bs).
  assert (Hk : 0 < k) by (subst k bs; simpl; lia).
  assert (Hp : position k a <= k /\
               (position k a < k -> a mod k = position k a) /\
               (position k a = k -> a mod k = 0)).
  { destruct a as [|j]; simpl.
    - rewrite Nat.Div0.mod_0_l. lia.
    - pose proof (Nat.mod_upper_bound j k). rewrite (succ_mod j k Hk).
      case_decide; lia. }
  destruct Hp as (Hle & Hlt & Heq).
  destruct (decide (position k a < k)) as [Hin|Hout].
  - destruct (lookup_lt_is_Some_2 bs (position k a)) as [b Hb]; [done|].
    rewrite (drop_S _ _ _ Hb). intros [= <- <-].
    rewrite (Hlt Hin). split; [done|].
    by rewrite Nat.add_1_r.
  - assert (position k a = k) as Hpk by lia.
    rewrite Hpk. unfold k at 1. rewrite drop_all. rewrite (Heq Hpk).
    rewrite Hbs. simpl. by intros [= <- <-].
Qed.

Lemma for_each_cycles gpu dl ck epoch bs :
  dl_items dl = map inr bs ->
  forall n a (s s' : state) log,
    ts_tr_it s = map inr (drop (position (length bs) a) bs) ->
    for_each (map Z.of_nat (seq a n)) (step gpu dl ck epoch) s
    = (log, ok s') ->
    Some <$> batches_of log
    = (fun i => bs !! (i mod length bs)) <$> seq a n.
Proof.
  intros Hdl. induction n as [|n IH]; intros a s s' log Hs; simpl.
  - by intros [= <- _].
  - destruct (step gpu dl ck epoch (Z.of_nat a) s) as [l1 [e|s1]] eqn:Hstep;
      simpl; [discriminate|].
    destruct (train_step_batch gpu dl ck epoch (Z.of_nat a) s s1)
      as (data & Hf & Hb); [by rewrite Hstep|].
    rewrite Hstep in Hb. simpl in Hb. rewrite Hs in Hf.
    destruct (fetch_position dl bs a data _ Hdl Hf) as [Hdata Hit].
    destruct (for_each _ _ s1) as [l2 r2] eqn:Hrest. intros [= <- ->].
    unfold batches_of in *. rewrite omap_app, fmap_app, Hb.
    rewrite (IH (S a) s1 s' l2 Hit Hrest). simpl. by rewrite Hdata.
Qed.

(** X5: in an epoch that completes over a loader whose iterator yields the
    batches [bs] and raises nothing, step [i] works on batch
    [i mod len(bs)]: once the iterator is exhausted the loop starts again
    from the first batch. *)
Theorem train_epoch_cycles_batches (gpu : Z) (dl : dataloader)
    (ck epoch : Z) (mo mo' : module weights * optimizer ostate)
    (bs : list batch) :
  dl_items dl = map inr bs ->
  (epoch_loop gpu dl ck epoch mo).2 = ok mo' ->
  Some <$> batches_of (epoch_loop gpu dl ck epoch mo).1
  = (fun i => bs !! (i mod length bs)) <$> seq 0 (dl_len dl).
Proof.
  intros Hdl. rewrite train_epoch_unfold. simpl.
  destruct (for_each _ _ _) as [log [e|s']] eqn:Hloop; [discriminate|].
  intros _. simpl. rewrite py_range_nat in Hloop.
  eapply (for_each_cycles gpu dl ck epoch bs Hdl); [|exact Hloop].
  simpl. unfold iter. by rewrite Hdl, drop_0.
Qed.

End TrainingMore.

Lemma train_epoch_cycles_batches_witness :
  Some <$> batches_of
             (train_epoch example_net example_autograd example_update_rule 0
                (example_loader2 4 0) 2 0
                ({| arch := example_model; params := 3%Q |},
                 optim_Adam example_init_ostate (1 # 1000))).1
  = [Some example_batch; Some example_batch2; Some example_batch].
Proof.
  eapply (train_epoch_cycles_batches example_net example_autograd
            example_update_rule 0 (example_loader2 4 0) 2 0 _ _
            [example_batch; example_batch2]).
  - reflexivity.
  - vm_compute. reflexivity.
Defined.

(** ** More on whole runs of [train] *)

Lemma due_divides (gpu ck index : Z) :
  checkpoint_due gpu ck index = true ->
  ck <> 0%Z /\ index <> 0%Z /\ (ck | index)%Z /\ gpu = 0%Z.
Proof.
  unfold checkpoint_due.
  rewrite !andb_true_iff, !negb_true_iff, !Z.eqb_neq, !Z.eqb_eq.
  intros [[[Hck Hm] Hi] Hg]. repeat split; try done.
  by apply Z.mod_divide.
Qed.

(** X8: the sign of [checkpoint_every_n_steps] does not matter: a negative
    interval asks for the same checkpoints as its opposite. *)
Theorem checkpoint_due_opp (gpu ck index : Z) :
  checkpoint_due gpu (- ck) index = checkpoint_due gpu ck index.
Proof.
  unfold checkpoint_due.
  destruct (Z.eqb_spec ck 0) as [->|Hck]; [done|].
  replace (- ck =? 0)%Z with false by (symmetry; apply Z.eqb_neq; lia).
  simpl. do 2 f_equal. apply eq_iff_eq_true.
  rewrite !Z.eqb_eq, !Z.mod_divide by lia. apply Z.divide_opp_l.
Qed.

Section TrainingRuns.
Context {weights grads ostate : Type}.
Context (net_apply : resnet -> weights -> tensor -> result tensor).
Context (autograd : (weights -> result scalar) -> weights -> grads).
Context (update_rule :
  algorithm -> Q -> ostate -> weights -> grads -> weights * ostate).
Context (cfg : config).
Context (init_weights : resnet -> weights).
Context (init_ostate : algorithm -> ostate).
Context (files : gmap string (checkpoint weights ostate)).
Context (train_loader : Z -> Z -> dataloader).

Local Abbreviation step := (train_step net_apply autograd update_rule).
Local Abbreviation epoch_loop :=
  (train_epoch net_apply autograd update_rule).
Local Abbreviation state := (train_state weights ostate).
Local Abbreviation run gpu args :=
  (train cfg init_weights net_apply autograd init_ostate update_rule files
     train_loader gpu args).

(** *** An interval of zero *)

(** What a loop can have done when its first step cannot complete: nothing,
    or one update followed by the division by zero. *)
Local Abbreviation stopped l r :=
  ((l = [] /\ exists e, r = inl e)
   \/ (exists epoch index data a lr,
         l = [OptimizerStep epoch index data a lr]
         /\ r = inl ZeroDivisionError)).

Lemma train_step_zero gpu dl epoch index (s : state) :
  stopped (step gpu dl 0 epoch index s).1 (step gpu dl 0 epoch index s).2.
Proof.
  destruct (train_step_cases net_apply autograd update_rule gpu dl 0 epoch
              index s) as [[e ->]|(data & it' & loss & o & Hf & Hfw)].
  - left. eauto.
  - rewrite (train_step_updates _ _ _ _ _ _ _ _ _ _ _ _ _ Hf Hfw). simpl.
    right. eauto 10.
Qed.

Lemma train_epoch_zero gpu dl epoch
    (mo : module weights * optimizer ostate) :
  (dl_len dl = 0 /\ epoch_loop gpu dl 0 epoch mo = ([], ok mo))
  \/ (dl_len dl <> 0
      /\ stopped (epoch_loop gpu dl 0 epoch mo).1
           (epoch_loop gpu dl 0 epoch mo).2).
Proof.
  rewrite train_epoch_unfold. cbv zeta. rewrite py_range_nat.
  destruct (dl_len dl) as [|n]; simpl.
  - left. split; [done|]. by destruct mo.
  - right. split; [done|].
    destruct (train_step_zero gpu dl epoch (Z.of_nat 0)
                {| ts_model := mo.1; ts_optimizer := mo.2;
                   ts_tr_it := iter dl; ts_losses_train := [] |})
      as [[Hl [e He]]|(e' & i & d & a & lr & Hl & He)];
      destruct (step gpu dl 0 epoch (Z.of_nat 0) _) as [l r];
      simpl in Hl, He; subst; simpl; [left|right]; eauto 10.
Qed.

Lemma train_epochs_zero gpu dl epochs
    (mo : module weights * optimizer ostate) :
  let loop := for_each epochs (epoch_loop gpu dl 0) mo in
  (loop.1 = [] /\ exists mo', loop.2 = ok mo') \/ stopped loop.1 loop.2.
Proof.
  revert mo. induction epochs as [|epoch epochs IH]; intros mo; simpl.
  - left. eauto.
  - destruct (train_epoch_zero gpu dl epoch mo) as [[_ ->]|[_ Hs]].
    + simpl. specialize (IH mo). simpl in IH.
      destruct (for_each epochs _ mo) as [l r]. exact IH.
    + right. destruct (epoch_loop gpu dl 0 epoch mo) as [l [e|mo1]];
        simpl in *; [exact Hs|].
      destruct Hs as [[_ [e [=]]]|(? & ? & ? & ? & ? & _ & [=])].
Qed.

(** X6: with [checkpoint_every_n_steps] equal to zero a run saves nothing
    and makes at most one update: the test [index % checkpoint] of the first
    step raises [ZeroDivisionError] right after the update, and that is how
    the run ends. A run that returns has made no step at all. *)
Theorem train_zero_checkpoint_interval (gpu : Z) (args : namespace) :
  checkpoint_every_n_steps (cfg_train_params cfg) = 0%Z ->
  saved_paths (run gpu args).1 = []
  /\ length (steps_of (run gpu args).1) <= 1
  /\ (steps_of (run gpu args).1 <> [] ->
      (run gpu args).2 = inl ZeroDivisionError)
  /\ ((run gpu args).2 = ok tt -> steps_of (run gpu args).1 = []).
Proof.
  intros Hck. rewrite train_unfold, Hck.
  destruct (build_model cfg) as [e|model_];
    [repeat split; first [done|simpl; lia]|].
  destruct (if negb _ then _ else _) as [e|model];
    [repeat split; first [done|simpl; lia]|].
  cbv zeta.
  destruct (train_epochs_zero gpu
              (train_loader (world_size args) gpu)
              (py_range (max_num_epochs (cfg_train_params cfg)))
              (model, optim_Adam init_ostate (1 # 1000)))
    as [[Hl [mo' Hr]]|[[Hl [e Hr]]|(e' & i & d & a & lr & Hl & Hr)]];
    cbv zeta in Hl, Hr; rewrite Hl, Hr; simpl.
  - repeat split; first [done|simpl; lia].
  - repeat split; first [done|simpl; lia].
  - repeat split; first [done|simpl; lia].
Qed.

(** *** An interval that is never reached *)

(** X7: when the absolute value of [checkpoint_every_n_steps] is at least
    [len(train_dataloader)], no run ever saves a checkpoint: the only index of
    an epoch that the interval divides is 0, which is excluded, and nothing is
    saved when the loop ends. *)
Theorem train_saves_nothing_when_interval_large (gpu : Z)
    (args : namespace) :
  (Z.of_nat (dl_len (train_loader (world_size args) gpu))
   <= Z.abs (checkpoint_every_n_steps (cfg_train_params cfg)))%Z ->
  saved_paths (run gpu args).1 = [].
Proof.
  intros Hlen. apply saved_paths_nil. intros p o Hin.
  destruct (train_events net_apply autograd update_rule cfg init_weights
              init_ostate files train_loader gpu args _ Hin)
    as [[=]|(epoch & index & _ & Hi & [[data [=]]|Hs])].
  destruct Hs as (m & o' & _ & _ & _ & Hd).
  apply due_divides in Hd as (Hck & Hz & Hdiv & _).
  apply Z.divide_abs_l in Hdiv.
  apply Z.divide_pos_le in Hdiv; lia.
Qed.

(** *** Runs that complete *)

Lemma length_concat_map_const {A B} (f : A -> list B) (l : list A) n :
  (forall x, length (f x) = n) ->
  length (concat (map f l)) = length l * n.
Proof.
  intros Hf. induction l as [|x l IH]; simpl; [done|].
  by rewrite length_app, Hf, IH.
Qed.

(** X9: a run that returns has made one update for each index of each
    epoch, epoch after epoch: [max_num_epochs * len(train_dataloader)] updates
    in all, none when [max_num_epochs] is zero or negative. *)
Theorem train_completed_makes_all_steps (gpu : Z) (args : namespace) :
  (run gpu args).2 = ok tt ->
  let len := dl_len (train_loader (world_size args) gpu) in
  let epochs := max_num_epochs (cfg_train_params cfg) in
  steps_of (run gpu args).1
  = concat (map (fun epoch =>
                   map (fun index => (epoch, index))
                     (py_range (Z.of_nat len)))
              (py_range epochs))
  /\ length (steps_of (run gpu args).1) = Z.to_nat epochs * len
  /\ ((epochs <= 0)%Z -> steps_of (run gpu args).1 = []).
Proof.
  intros Hr len epochs.
  destruct (train_completed net_apply autograd update_rule cfg init_weights
              init_ostate files train_loader gpu args Hr) as [_ Hs].
  cbv zeta in Hs. fold len epochs in Hs. rewrite Hs.
  split; [done|]. split.
  - rewrite (length_concat_map_const _ _ len).
    + by rewrite py_range_length.
    + intros e. by rewrite length_map, py_range_length, Nat2Z.id.
  - intros Hle. unfold py_range.
    by replace (Z.to_nat epochs) with 0 by lia.
Qed.

End TrainingRuns.

Lemma train_zero_checkpoint_interval_witness :
  let r :=
    train (example_cfg (PyBool false) 0 2) example_init_weights example_net
      example_autograd example_init_ostate example_update_rule example_files
      example_loader 0 example_args in
  saved_paths r.1 = []
  /\ length (steps_of r.1) <= 1
  /\ (steps_of r.1 <> [] -> r.2 = inl ZeroDivisionError)
  /\ (r.2 = ok tt -> steps_of r.1 = []).
Proof.
  apply (train_zero_checkpoint_interval example_net example_autograd
           example_update_rule (example_cfg (PyBool false) 0 2)
           example_init_weights example_init_ostate example_files
           example_loader 0 example_args).
  reflexivity.
Defined.

Lemma train_saves_nothing_when_interval_large_witness :
  saved_paths
    (train (example_cfg (PyBool false) (-3) 2) example_init_weights
       example_net example_autograd example_init_ostate example_update_rule
       example_files example_loader 0 example_args).1 = [].
Proof.
  apply (train_saves_nothing_when_interval_large example_net
           example_autograd example_update_rule
           (example_cfg (PyBool false) (-3) 2) example_init_weights
           example_init_ostate example_files example_loader 0 example_args).
  simpl. lia.
Defined.

Lemma train_completed_makes_all_steps_witness :
  steps_of example_train.1
  = [(0, 0); (0, 1); (0, 2); (1, 0); (1, 1); (1, 2)]%Z
  /\ length (steps_of example_train.1) = 6
  /\ ((2 <= 0)%Z -> steps_of example_train.1 = []).
Proof.
  apply (train_completed_makes_all_steps example_net example_autograd
           example_update_rule (example_cfg (PyBool false) 2 2)
           example_init_weights example_init_ostate example_files
           example_loader 0 example_args).
  vm_compute. reflexivity.
Defined.

(** ** Names of the files *)

Lemma occurs_app c s1 s2 :
  occurs c (s1 +:+ s2) = occurs c s1 || occurs c s2.
Proof.
  induction s1 as [|c1 s1 IH]; simpl; [done|].
  by rewrite IH, orb_assoc.
Qed.

(** A character that is neither a digit nor the minus sign. *)
Local Abbreviation no_digit c := (occurs c "0123456789-" = false).

Lemma pretty_N_go_occurs c x s :
  no_digit c -> occurs c s = false -> occurs c (pretty_N_go x s) = false.
Proof.
  intros Hc. revert s. induction (N.lt_wf_0 x) as [x _ IH]; intros s Hs.
  assert (x = 0 \/ 0 < x)%N as [->|?] by lia.
  - by rewrite pretty_N_go_0.
  - rewrite pretty_N_go_step by done. apply IH; [by apply N.div_lt|].
    simpl. rewrite Hs, orb_false_r. simpl in Hc.
    repeat (apply orb_false_elim in Hc as [? Hc]).
    unfold pretty_N_char. by repeat case_match.
Qed.

Lemma pretty_Z_occurs c (z : Z) : no_digit c -> occurs c (pretty z) = false.
Proof.
  intros Hc.
  assert (HN : forall p, occurs c (pretty (N.pos p)) = false).
  { intros p. unfold pretty, pretty_N. case_decide; [done|].
    by apply pretty_N_go_occurs. }
  simpl in Hc. repeat (apply orb_false_elim in Hc as [? Hc]).
  destruct z as [|p|p]; unfold pretty, pretty_Z.
  - simpl.
    by repeat match goal with
              | H : Ascii.eqb _ _ = false |- _ => rewrite H; clear H
              end.
  - apply HN.
  - rewrite occurs_app. unfold pretty, pretty_positive. rewrite HN. simpl.
    by repeat match goal with
              | H : Ascii.eqb _ _ = false |- _ => rewrite H; clear H
              end.
Qed.

Lemma split_at_char c a a' b b' :
  occurs c a = false -> occurs c a' = false ->
  a +:+ String c b = a' +:+ String c b' -> a = a' /\ b = b'.
Proof.
  revert a'. induction a as [|x a IH]; intros [|x' a']; simpl.
  - by intros _ _ [= ->].
  - intros _ [Hx _]%orb_false_elim [= -> _].
    by rewrite Ascii.eqb_refl in Hx.
  - intros [Hx _]%orb_false_elim _ [= <- _].
    by rewrite Ascii.eqb_refl in Hx.
  - intros [_ Ha]%orb_false_elim [_ Ha']%orb_false_elim [= -> Heq].
    destruct (IH a' Ha Ha' Heq) as [-> ->]. done.
Qed.

Lemma checkpoint_path_inj epoch index epoch' index' :
  checkpoint_path epoch index = checkpoint_path epoch' index' ->
  epoch = epoch' /\ index = index'.
Proof.
  unfold checkpoint_path. intros H.
  apply (inj (String.append log_dir)) in H.
  apply (inj (String.append "resnet_")) in H.
  apply (split_at_char "_"%char) in H as [He H];
    [|by apply pretty_Z_occurs..].
  apply (split_at_char "."%char) in H as [Hi _];
    [|by apply pretty_Z_occurs..].
  split; by apply (inj pretty).
Qed.

Lemma py_range_NoDup n : NoDup (py_range n).
Proof.
  unfold py_range. apply (NoDup_fmap_2 Z.of_nat).
  apply NoDup_ListNoDup, List.seq_NoDup.
Qed.

Lemma due_paths_in gpu ck epoch indices p :
  In p (concat (map (fun index =>
                       if checkpoint_due gpu ck index
                       then [checkpoint_path epoch index] else [])
                  indices)) ->
  exists index, In index indices /\ p = checkpoint_path epoch index.
Proof.
  induction indices as [|i indices IH]; simpl; [done|].
  intros [Hin|Hin]%in_app_or.
  - destruct (checkpoint_due gpu ck i); [|done].
    destruct Hin as [<-|[]]. eauto.
  - destruct (IH Hin) as (j & Hj & ->). eauto.
Qed.

Lemma due_paths_NoDup gpu ck epoch indices :
  NoDup indices ->
  NoDup (concat (map (fun index =>
                        if checkpoint_due gpu ck index
                        then [checkpoint_path epoch index] else [])
                   indices)).
Proof.
  induction 1 as [|i indices Hi _ IH]; simpl; [constructor|].
  apply NoDup_app. split; [|split; [|done]].
  - destruct (checkpoint_due gpu ck i); [apply NoDup_singleton|constructor].
  - intros p Hp Hin. apply list_elem_of_In in Hin.
    destruct (due_paths_in _ _ _ _ _ Hin) as (j & Hj & ->).
    destruct (checkpoint_due gpu ck i); [|by apply elem_of_nil in Hp].
    apply list_elem_of_singleton, checkpoint_path_inj in Hp as [_ ->].
    apply Hi. by apply list_elem_of_In.
Qed.

Lemma all_due_paths_NoDup gpu ck epochs indices :
  NoDup epochs -> NoDup indices ->
  NoDup (concat (map (fun epoch =>
                        concat (map (fun index =>
                                       if checkpoint_due gpu ck index
                                       then [checkpoint_path epoch index]
                                       else []) indices)) epochs)).
Proof.
  intros He Hi. induction He as [|e epochs Hne _ IH]; simpl; [constructor|].
  apply NoDup_app. split; [by apply due_paths_NoDup|]. split; [|done].
  intros p Hp Hin. apply list_elem_of_In in Hp, Hin.
  destruct (due_paths_in _ _ _ _ _ Hp) as (i & _ & ->).
  apply in_concat in Hin as (l & Hl & Hin).
  apply in_map_iff in Hl as (e' & <- & He').
  destruct (due_paths_in _ _ _ _ _ Hin) as (i' & _ & Heq).
  apply checkpoint_path_inj in Heq as [-> _].
  apply Hne. by apply list_elem_of_In.
Qed.

Section Files.
Context {weights grads ostate : Type}.
Context (net_apply : resnet -> weights -> tensor -> result tensor).
Context (autograd : (weights -> result scalar) -> weights -> grads).
Context (update_rule :
  algorithm -> Q -> ostate -> weights -> grads -> weights * ostate).
Context (cfg : config).
Context (init_weights : resnet -> weights).
Context (init_ostate : algorithm -> ostate).
Context (train_loader : Z -> Z -> dataloader).

Local Abbreviation train_with files :=
  (train cfg init_weights net_apply autograd init_ostate update_rule files
     train_loader).
Local Abbreviation fs := (gmap string (checkpoint weights ostate)).

(** X10: the name of a checkpoint determines its epoch and its index, so
    the checkpoints of a run that returns are written to pairwise distinct
    files: none overwrites another. *)
Theorem train_checkpoints_are_distinct (files : fs) (gpu : Z)
    (args : namespace) :
  (train_with files gpu args).2 = ok tt ->
  NoDup (saved_paths (train_with files gpu args).1)
  /\ (forall epoch index epoch' index',
        checkpoint_path epoch index = checkpoint_path epoch' index' ->
        epoch = epoch' /\ index = index').
Proof.
  intros Hr. split; [|apply checkpoint_path_inj].
  destruct (train_completed net_apply autograd update_rule cfg init_weights
              init_ostate files train_loader gpu args Hr) as [-> _].
  apply all_due_paths_NoDup; apply py_range_NoDup.
Qed.

(** [train] reads at most the file named after [model_num]. *)
Lemma train_reads_one_file (files files' : fs) gpu args :
  model_num (cfg_train_params cfg) = 0%Z
  \/ files !! load_path (model_num (cfg_train_params cfg))
     = files' !! load_path (model_num (cfg_train_params cfg)) ->
  train_with files gpu args = train_with files' gpu args.
Proof.
  intros H. unfold train, torch_load.
  fold (load_path (model_num (cfg_train_params cfg))).
  destruct H as [-> | ->]; reflexivity.
Qed.

(** X13: [train] reads a file only to resume: with [model_num] equal to
    zero the files do not matter at all, and otherwise only the file
    [resnet_{model_num}.pth] does; in that case the initial parameters of the
    module do not matter, since the loaded ones replace them. *)
Theorem train_reads_only_its_checkpoint (files files' : fs)
    (gpu : Z) (args : namespace) :
  (model_num (cfg_train_params cfg) = 0%Z
   \/ files !! load_path (model_num (cfg_train_params cfg))
      = files' !! load_path (model_num (cfg_train_params cfg)) ->
   train_with files gpu args = train_with files' gpu args)
  /\ (model_num (cfg_train_params cfg) <> 0%Z ->
      forall init_weights',
        train cfg init_weights' net_apply autograd init_ostate update_rule
          files train_loader gpu args
        = train_with files gpu args).
Proof.
  split; [apply train_reads_one_file|].
  intros Hn init_weights'. unfold train.
  rewrite (proj2 (Z.eqb_neq _ 0) Hn). simpl.
  destruct (build_model cfg) as [e|model_]; simpl; [done|].
  destruct (torch_load files _) as [e|obj]; simpl; [done|].
  unfold load_model_state. simpl.
  destruct (obj !! "model") as [[w|a lr s]|]; reflexivity.
Qed.

(** X14: [train] asked to resume from a file that is missing, or that has no
    entry ['model'], raises before any step: [FileNotFoundError] in the first
    case and [KeyError] in the second. *)
Theorem train_resume_errors (files : fs) (gpu : Z) (args : namespace)
    (model_ : resnet) :
  build_model cfg = ok model_ ->
  model_num (cfg_train_params cfg) <> 0%Z ->
  let path := load_path (model_num (cfg_train_params cfg)) in
  (files !! path = None ->
   train_with files gpu args
   = ([InitProcessGroup (world_size args) gpu],
      inl (FileNotFoundError path)))
  /\ (forall obj,
        files !! path = Some obj -> obj !! "model" = None ->
        train_with files gpu args
        = ([InitProcessGroup (world_size args) gpu],
           inl (KeyError "model"))).
Proof.
  intros Hb Hn path. change (build_model cfg = inr model_) in Hb.
  split.
  - intros Hf. unfold path, load_path in *. unfold train.
    rewrite Hb, (proj2 (Z.eqb_neq _ 0) Hn). simpl.
    unfold torch_load. by rewrite Hf.
  - intros obj Hf Hm. unfold path, load_path in *. unfold train.
    rewrite Hb, (proj2 (Z.eqb_neq _ 0) Hn). simpl.
    unfold torch_load. rewrite Hf. simpl.
    unfold load_model_state. by rewrite Hm.
Qed.

End Files.


Lemma train_checkpoints_are_distinct_witness :
  NoDup (saved_paths example_train.1).
Proof.
  apply (train_checkpoints_are_distinct example_net example_autograd
           example_update_rule (example_cfg (PyBool false) 2 2)
           example_init_weights example_init_ostate example_loader
           example_files 0 example_args).
  vm_compute. reflexivity.
Defined.

Lemma train_reads_only_its_checkpoint_witness :
  example_train
  = train (example_cfg (PyBool false) 2 2) example_init_weights example_net
      example_autograd example_init_ostate example_update_rule ∅
      example_loader 0 example_args.
Proof.
  apply (proj1
           (train_reads_only_its_checkpoint example_net example_autograd
              example_update_rule (example_cfg (PyBool false) 2 2)
              example_init_weights example_init_ostate example_loader
              example_files ∅ 0 example_args)).
  left. reflexivity.
Defined.

Lemma train_resume_errors_witness :
  train (set_model_num 9 (example_cfg (PyBool false) 2 2))
    example_init_weights example_net example_autograd example_init_ostate
    example_update_rule example_files example_loader 0 example_args
  = ([InitProcessGroup 4 0], inl (FileNotFoundError (load_path 9))).
Proof.
  apply (proj1
           (train_resume_errors example_net example_autograd
              example_update_rule
              (set_model_num 9 (example_cfg (PyBool false) 2 2))
              example_init_weights example_init_ostate example_loader
              example_files 0 example_args example_model eq_refl
              ltac:(discriminate))).
  vm_compute. reflexivity.
Defined.

(** ** More on [test] *)

Lemma write_pred_csv_cases {weights ostate} path ts ids coords :
  @write_pred_csv weights ostate path ts ids coords
  = ([WritePredCsv path ts ids coords], ok tt)
  \/ @write_pred_csv weights ostate path ts ids coords
     = ([], inl AssertionError).
Proof.
  unfold write_pred_csv.
  destruct (shape coords) as [|n [|t [|c [|? ?]]]]; auto.
  destruct (_ && _); auto.
Qed.

Section EvaluationMore.
Context {weights ostate : Type}.
Context (cfg : config).
Context (init_weights : resnet -> weights).
Context (net_apply : resnet -> weights -> tensor -> result tensor).
Context (files : gmap string (checkpoint weights ostate)).
Context (test_loader : Z -> Z -> dataloader).

Local Abbreviation run gpu args :=
  (test cfg init_weights net_apply files test_loader gpu args).
Local Abbreviation fresh :=
  ({| es_future_coords_offsets_pd := []; es_timestamps := [];
      es_agent_ids := [] |}).

(** X15: [test] always loads [resnet_{model_num}.pth] of its parameters: a
    missing file ends it with [FileNotFoundError], a file without an entry
    ['model'] with [KeyError], in both cases before any batch is evaluated and
    without writing predictions. *)
Theorem test_load_errors (gpu : Z) (args : namespace) (model_ : resnet) :
  build_model cfg = ok model_ ->
  let path := load_path (test_model_num (cfg_test_params cfg)) in
  (files !! path = None ->
   run gpu args
   = ([InitProcessGroup (world_size args) gpu],
      inl (FileNotFoundError path)))
  /\ (forall obj,
        files !! path = Some obj -> obj !! "model" = None ->
        run gpu args
        = ([InitProcessGroup (world_size args) gpu],
           inl (KeyError "model"))).
Proof.
  intros Hb path. change (build_model cfg = inr model_) in Hb.
  unfold path, load_path. split.
  - intros Hf. rewrite test_unfold. cbv zeta. rewrite Hb.
    unfold torch_load. by rewrite Hf.
  - intros obj Hf Hm. rewrite test_unfold. cbv zeta. rewrite Hb.
    unfold torch_load. rewrite Hf. unfold ok at 1. cbv beta iota.
    unfold load_model_state, checkpoint in *. by rewrite Hm.
Qed.

(** X16: the evaluation never uses the initial parameters of the module:
    whatever they are, [test] behaves the same, since it either fails to load
    the checkpoint or replaces them by the loaded ones. *)
Theorem test_ignores_initial_weights (init_weights' : resnet -> weights)
    (gpu : Z) (args : namespace) :
  test cfg init_weights' net_apply files test_loader gpu args
  = run gpu args.
Proof.
  rewrite !test_unfold. cbv zeta.
  destruct (build_model cfg) as [e|model_]; [done|].
  destruct (torch_load files _) as [e|obj]; [done|].
  unfold load_model_state.
  destruct (obj !! "model") as [[w|a lr s]|]; reflexivity.
Qed.

(** X17: [test] writes the predictions at the very end or not at all: a
    run that raises has written nothing, and a run that returns has written
    the file exactly once, as its last effect. *)
Theorem test_writes_all_or_nothing (gpu : Z) (args : namespace) :
  (forall e,
     (run gpu args).2 = inl e ->
     (run gpu args).1 = [InitProcessGroup (world_size args) gpu])
  /\ ((run gpu args).2 = ok tt ->
      exists timestamps track_ids coords,
        (run gpu args).1
        = [InitProcessGroup (world_size args) gpu;
           WritePredCsv "./pred.csv" timestamps track_ids coords]).
Proof.
  rewrite test_unfold. cbv zeta.
  destruct (build_model cfg) as [e|model_]; [by split|].
  destruct (torch_load files _) as [e|obj]; [by split|].
  destruct (load_model_state obj _) as [e|model]; [by split|].
  destruct (eval_loop _ _ _ _ _) as [e|s]; [by split|].
  destruct (concatenate_1d (es_timestamps s)) as [e|ts]; [by split|].
  destruct (concatenate_1d (es_agent_ids s)) as [e|ids]; [by split|].
  destruct (concatenate _) as [e|coords]; [by split|].
  destruct (@write_pred_csv_cases weights ostate "./pred.csv" ts ids coords)
    as [-> | ->]; simpl; split; try done. eauto.
Qed.

(** X18: over a loader that yields no batch, [test] raises [ValueError]
    ([np.concatenate] refuses an empty list) and writes no file. *)
Theorem test_empty_loader_raises (gpu : Z) (args : namespace)
    (model_ : resnet) (obj : checkpoint weights ostate)
    (model : module weights) :
  build_model cfg = ok model_ ->
  files !! load_path (test_model_num (cfg_test_params cfg)) = Some obj ->
  load_model_state obj {| arch := model_; params := init_weights model_ |}
  = ok model ->
  dl_items (test_loader (world_size args) gpu) = [] ->
  exists msg,
    run gpu args
    = ([InitProcessGroup (world_size args) gpu], inl (ValueError msg)).
Proof.
  intros Hb Hf Hm Hdl. change (build_model cfg = inr model_) in Hb.
  change (load_model_state obj
            {| arch := model_; params := init_weights model_ |}
          = inr model) in Hm.
  unfold load_path in Hf.
  rewrite test_unfold. cbv zeta. rewrite Hb. unfold torch_load.
  rewrite Hf. unfold ok at 1. cbv beta iota. rewrite Hm. cbv beta iota.
  unfold iter. rewrite Hdl. simpl. eauto.
Qed.

Lemma eval_loop_raises gpu (model : module weights) bs e rest s :
  e <> StopIteration ->
  (forall b, In b bs ->
     exists r, forward b (call net_apply model) gpu MSELoss_none = ok r) ->
  eval_loop net_apply gpu model (map inr bs ++ inl e :: rest) s = inl e.
Proof.
  intros He. revert s. induction bs as [|b bs IH]; intros s Hfw; simpl.
  - by destruct e.
  - destruct (Hfw b) as [r ->]; [by left|]. simpl.
    apply IH. intros b' Hb'. apply Hfw. by right.
Qed.

(** X19: when the iterator of the loader raises anything but
    [StopIteration], after any number of batches, [test] ends with that
    exception and the predictions made so far are lost: nothing is
    written. *)
Theorem test_loader_exception_loses_predictions (gpu : Z)
    (args : namespace) (model_ : resnet) (obj : checkpoint weights ostate)
    (model : module weights) (bs : list batch) (e : exn)
    (rest : iterator) :
  build_model cfg = ok model_ ->
  files !! load_path (test_model_num (cfg_test_params cfg)) = Some obj ->
  load_model_state obj {| arch := model_; params := init_weights model_ |}
  = ok model ->
  dl_items (test_loader (world_size args) gpu)
  = map inr bs ++ inl e :: rest ->
  e <> StopIteration ->
  (forall b, In b bs ->
     exists r, forward b (call net_apply model) gpu MSELoss_none = ok r) ->
  run gpu args = ([InitProcessGroup (world_size args) gpu], inl e).
Proof.
  intros Hb Hf Hm Hdl He Hfw. change (build_model cfg = inr model_) in Hb.
  change (load_model_state obj
            {| arch := model_; params := init_weights model_ |}
          = inr model) in Hm.
  unfold load_path in Hf.
  rewrite test_unfold. cbv zeta. rewrite Hb. unfold torch_load.
  rewrite Hf. unfold ok at 1. cbv beta iota. rewrite Hm. cbv beta iota.
  unfold iter. rewrite Hdl.
  by rewrite (eval_loop_raises gpu model bs e rest fresh He Hfw).
Qed.

End EvaluationMore.

Lemma test_load_errors_witness :
  test (example_cfg (PyBool true) 2 2) example_init_weights example_net
    (∅ : gmap string (checkpoint Q nat)) example_loader 0 example_args
  = ([InitProcessGroup 4 0], inl (FileNotFoundError (load_path 7))).
Proof.
  apply (proj1
           (test_load_errors (example_cfg (PyBool true) 2 2)
              example_init_weights example_net ∅ example_loader 0
              example_args example_model eq_refl)).
  reflexivity.
Defined.

Lemma test_writes_all_or_nothing_witness :
  exists timestamps track_ids coords,
    example_test.1
    = [InitProcessGroup 4 0;
       WritePredCsv "./pred.csv" timestamps track_ids coords].
Proof.
  apply (proj2
           (test_writes_all_or_nothing (example_cfg (PyBool true) 2 2)
              example_init_weights example_net example_files example_loader
              0 {| flags := default_args; world_size := 4 |})).
  vm_compute. reflexivity.
Defined.

Lemma test_empty_loader_raises_witness :
  exists msg,
    test (example_cfg (PyBool true) 2 2) example_init_weights example_net
      example_files empty_loader 0 example_args
    = ([InitProcessGroup 4 0], inl (ValueError msg)).
Proof.
  apply (test_empty_loader_raises (example_cfg (PyBool true) 2 2)
           example_init_weights example_net example_files empty_loader 0
           example_args example_model {[ "model" := ModelState 5%Q ]}
           {| arch := example_model; params := 5%Q |}).
  - reflexivity.
  - vm_compute. reflexivity.
  - vm_compute. reflexivity.
  - reflexivity.
Defined.

Lemma test_loader_exception_loses_predictions_witness :
  test (example_cfg (PyBool true) 2 2) example_init_weights example_net
    example_files failing_loader 0 example_args
  = ([InitProcessGroup 4 0], inl (RuntimeError "worker failed")).
Proof.
  apply (test_loader_exception_loses_predictions
           (example_cfg (PyBool true) 2 2) example_init_weights example_net
           example_files failing_loader 0 example_args example_model
           {[ "model" := ModelState 5%Q ]}
           {| arch := example_model; params := 5%Q |}
           [example_batch] (RuntimeError "worker failed") []).
  - reflexivity.
  - vm_compute. reflexivity.
  - vm_compute. reflexivity.
  - reflexivity.
  - discriminate.
  - intros b [<-|[]]. eexists. reflexivity.
Defined.

(** ** More on the launcher *)

Section LauncherMore.
Context {weights grads ostate : Type}.
Context (init_weights : resnet -> weights).
Context (net_apply : resnet -> weights -> tensor -> result tensor).
Context (autograd : (weights -> result scalar) -> weights -> grads).
Context (init_ostate : algorithm -> ostate).
Context (update_rule :
  algorithm -> Q -> ostate -> weights -> grads -> weights * ostate).
Context (files : gmap string (checkpoint weights ostate)).
Context (train_loader test_loader : Z -> Z -> dataloader).

Local Abbreviation spawn cfg :=
  (mp_spawn cfg init_weights net_apply autograd init_ostate update_rule files
     train_loader test_loader).

Lemma train_first_event cfg gpu args :
  hd_error
    (train cfg init_weights net_apply autograd init_ostate update_rule files
       train_loader gpu args).1
  = Some (InitProcessGroup (world_size args) gpu).
Proof.
  rewrite train_unfold.
  destruct (build_model cfg); [done|].
  by destruct (if negb _ then _ else _).
Qed.

Lemma test_first_event cfg gpu args :
  hd_error (test cfg init_weights net_apply files test_loader gpu args).1
  = Some (InitProcessGroup (world_size args) gpu).
Proof.
  rewrite test_unfold. cbv zeta.
  repeat (match goal with
          | |- context [match ?x with inl _ => _ | inr _ => _ end] =>
              destruct x; [done|]
          end).
  done.
Qed.

(** X20: [main] starts [gpus] processes, none when [gpus] is zero or
    negative. Process number [i] joins a group of [gpus * nodes] members with
    rank [i]: ranks are always below [gpus], so with more than one node the
    ranks from [gpus] on are never started. *)
Theorem main_spawns_local_ranks (cfg : config) (parsed : parsed_args) :
  length (spawn cfg (main cfg parsed)) = Z.to_nat (gpus parsed)
  /\ ((gpus parsed <= 0)%Z -> spawn cfg (main cfg parsed) = [])
  /\ (forall (i : nat) p,
        spawn cfg (main cfg parsed) !! i = Some p ->
        hd_error p.1
        = Some (InitProcessGroup (gpus parsed * nodes parsed) (Z.of_nat i))
        /\ (Z.of_nat i < gpus parsed)%Z).
Proof.
  rewrite mp_spawn_main. split; [|split].
  - by rewrite length_map, py_range_length.
  - intros Hle. unfold py_range. by replace (Z.to_nat (gpus parsed)) with 0
      by lia.
  - intros i p. rewrite list_lookup_fmap. unfold py_range.
    rewrite list_lookup_fmap.
    destruct (seq 0 (Z.to_nat (gpus parsed)) !! i) as [j|] eqn:Hj;
      [|discriminate].
    apply lookup_seq in Hj as [-> Hlt]. simpl. intros [= <-].
    split; [|lia]. cbv zeta.
    destruct (truthy _); [apply test_first_event|apply train_first_event].
Qed.

End LauncherMore.

Lemma main_spawns_local_ranks_witness :
  hd_error
    (train (example_cfg (PyBool false) 2 2) example_init_weights example_net
       example_autograd example_init_ostate example_update_rule
       example_files example_loader 1
       {| flags := {| nodes := 2; gpus := 2; nr := 1 |};
          world_size := 4 |}).1
  = Some (InitProcessGroup (2 * 2) 1) /\ (1 < 2)%Z.
Proof.
  apply (proj2 (proj2
           (main_spawns_local_ranks example_init_weights example_net
              example_autograd example_init_ostate example_update_rule
              example_files example_loader example_loader
              (example_cfg (PyBool false) 2 2)
              {| nodes := 2; gpus := 2; nr := 1 |})) 1).
  reflexivity.
Defined.
